(** * The VPU strided-slice stage: mask codec, frontend, validator, encoder

    A shallow embedding of
    [inference-engine/src/vpu/graph_transformer/src/stages/strided_slice.cpp]
    and the properties its specification states about it.

    C++ exceptions are values of an error type, the graph container and the
    blob serializer are threaded explicitly, and the places where the C++
    standard leaves the behaviour undefined are a separate outcome. *)

From Stdlib Require Import ZArith Lia Bool Ascii String List.
From stdpp Require Import base option list strings gmap.

Local Open Scope string_scope.
Local Open Scope Z_scope.

(** ** Outcomes of a call *)

(** Specification section 7 sorts the failures into kinds. *)
Inductive ErrorKind :=
  | FormatError
  | ArityError
  | TypeMismatch
  | UnsupportedFeature
  | MissingCompileTimeData
  | ContractViolation.

(** The enumerations below are declared in headers of the graph transformer;
    this file names [DataType::S32] and [StageType::StridedSlice] only. *)
Inductive DataType := FP16 | U8 | S32 | FP32 | I8.

#[global] Instance DataType_eq_dec : EqDecision DataType.
Proof. solve_decision. Defined.

Inductive StageType := StridedSlice.

Inductive DataUsage := Input | Output | Const | Intermediate | Temp | Fake.

(** One constructor per throw site, carrying the arguments of its message. *)
Inductive Error :=
  (* maskStrToInt, line 29 *)
  | UnsupportedMaskValue (character : ascii)
  (* parseStridedSlice, lines 98 and 101 *)
  | ParseNumInputs (layerName layerType : string) (n : nat)
  | ParseNumOutputs (layerName layerType : string) (n : nat)
  (* parseStridedSlice, lines 106, 110 and 114 *)
  | MaskNotSupported (layerName layerType : string) (param : string)
  (* parseStridedSlice, lines 124 and 128 *)
  | StridesPointerNull (layerName layerType : string)
  | NegativeStride (layerName layerType : string)
  (* initialCheckImpl, lines 58 and 61 *)
  | CheckNumInputs (stageName : string) (stageType : StageType) (n : nat)
  | CheckNumOutputs (stageName : string) (stageType : StageType) (n : nat)
  (* assertInputsOutputsTypes *)
  | TypesCountMismatch (stageName : string)
  | UnexpectedDataType (stageName : string) (idx : nat) (actual : DataType)
  (* input(i) / output(i) with i out of range *)
  | EdgeIndexOutOfRange (stageName : string) (idx : nat).

Definition errorKind (e : Error) : ErrorKind :=
  match e with
  | UnsupportedMaskValue _ => FormatError
  | ParseNumInputs _ _ _ | ParseNumOutputs _ _ _ => ArityError
  | CheckNumInputs _ _ _ | CheckNumOutputs _ _ _ => ArityError
  | MaskNotSupported _ _ _ => UnsupportedFeature
  | StridesPointerNull _ _ | NegativeStride _ _ => MissingCompileTimeData
  | TypesCountMismatch _ | UnexpectedDataType _ _ _ => TypeMismatch
  | EdgeIndexOutOfRange _ _ => ContractViolation
  end.

(** [Ok] is a normal return, [Throw] an exception leaving the function,
    [Undefined] an execution the C++ standard gives no meaning to
    (a shift by at least the width of [int], signed overflow). *)
Inductive outcome (A : Type) :=
  | Ok (a : A)
  | Throw (e : Error)
  | Undefined.

Arguments Ok {A} a.
Arguments Throw {A} e.
Arguments Undefined {A}.

#[global] Instance outcome_ret : MRet outcome := fun _ a => Ok a.

#[global] Instance outcome_bind : MBind outcome := fun _ _ f m =>
  match m with
  | Ok a => f a
  | Throw e => Throw e
  | Undefined => Undefined
  end.

(** [VPU_THROW_UNLESS(cond, ...)] *)
Definition VPU_THROW_UNLESS (cond : bool) (e : Error) : outcome unit :=
  if cond then Ok tt else Throw e.

Definition succeeds {A} (o : outcome A) : Prop := exists a, o = Ok a.

Definition throwsKind {A} (o : outcome A) (k : ErrorKind) : Prop :=
  exists e, o = Throw e /\ errorKind e = k.

(** ** Machine integers *)

Definition INT_MAX : Z := 2 ^ 31 - 1.

(** The value of type [int] congruent to [z] modulo 2^32. *)
Definition toInt (z : Z) : Z := (z + 2 ^ 31) mod 2 ^ 32 - 2 ^ 31.

(** Conversion to [std::uint32_t]. *)
Definition toUInt32 (z : Z) : Z := z mod 2 ^ 32.

(** [a << n] on [int] with [a] non-negative: defined when [n] is below the
    width and [a * 2^n] fits the unsigned type, and then that value converted
    to [int]; anything else is undefined. *)
Definition shlInt (a n : Z) : option Z :=
  if (0 <=? n) && (n <? 32) && (Z.shiftl a n <? 2 ^ 32)
  then Some (toInt (Z.shiftl a n))
  else None.

(** ** Mask codec *)

(** The body of the range-for loop of [maskStrToInt], over the characters
    still to be read, with the locals [result] and [idx]. *)
Fixpoint maskLoop (mask : string) (result idx : Z) : outcome Z :=
  match mask with
  | EmptyString => Ok result
  | String character rest =>
      if Ascii.eqb character "," then
        maskLoop rest result idx
      else if Ascii.eqb character "1" then
        (* result |= (0x1 << idx++) *)
        match shlInt 1 idx with
        | Some bit => maskLoop rest (Z.lor result (toUInt32 bit)) (idx + 1)
        | None => Undefined
        end
      else if Ascii.eqb character "0" then
        (* idx++ *)
        if idx <? INT_MAX then maskLoop rest result (idx + 1) else Undefined
      else
        Throw (UnsupportedMaskValue character)
  end.

Definition maskStrToInt (mask : string) : outcome Z := maskLoop mask 0 0.

(** The non-separator characters of a mask text, in order. *)
Fixpoint flagChars (mask : string) : list ascii :=
  match mask with
  | EmptyString => []
  | String c rest =>
      if Ascii.eqb c "," then flagChars rest else c :: flagChars rest
  end.

Definition isMaskChar (c : ascii) : bool :=
  Ascii.eqb c "," || Ascii.eqb c "1" || Ascii.eqb c "0".

(** Every character is ['0'], ['1'] or the separator. *)
Fixpoint onlyMaskChars (mask : string) : bool :=
  match mask with
  | EmptyString => true
  | String c rest => isMaskChar c && onlyMaskChars rest
  end.

(** Thirty-three flags, all set: one more than a 32-bit mask holds. *)
Definition flags33 : string :=
  "1,1,1,1,1,1,1,1,1,1,1,1,1,1,1,1,1,1,1,1,1,1,1,1,1,1,1,1,1,1,1,1,1".

(** What the specification asks of the encoding [r] of [mask]: a 32-bit
    unsigned value whose bit [i] tells whether flag [i] is ['1']. *)
Definition encodes (mask : string) (r : Z) : Prop :=
  0 <= r < 2 ^ 32 /\
  forall i : nat, Z.testbit r (Z.of_nat i) = true <-> flagChars mask !! i = Some "1"%char.

(** ** Tensors, layers, stages *)

Record DataDesc := mkDataDesc {
  dataType : DataType;
  dims : list Z
}.

(** [desc().totalDimSize()]: the number of elements, the product of the
    dimension sizes. *)
Definition totalDimSize (d : DataDesc) : Z := fold_right Z.mul 1 (dims d).

(** The object [content()] points to, as this file reads it. [getS32] is what
    [get<int32_t>()] returns: [None] for the null pointer, else the array the
    pointer addresses, of which [totalDimSize] elements belong to the tensor. *)
Record DataContent := mkDataContent {
  getS32 : option (nat -> Z)
}.

(** A tensor as this file reads it. [content] is the pointer [content()]
    returns: [None] when it is null, as for a tensor with no constant
    content. *)
Record Data := mkData {
  usage : DataUsage;
  desc : DataDesc;
  content : option DataContent
}.

Abbreviation DataVector := (list Data).

(** [ie::CNNLayer]: every parameter is stored as text. *)
Record CNNLayer := mkCNNLayer {
  layerName : string;
  layerType : string;
  params : gmap string string
}.

(** Modelled from the spec: [GetParamAsString(param, def)] is a method of the
    layer class, which is not in this file. Section 3 has the layer map
    parameter names to text; [def] is the text for a name with no entry. *)
Definition GetParamAsString (layer : CNNLayer) (param def : string) : string :=
  default def (params layer !! param).

Record Stage := mkStage {
  name : string;
  type : StageType;
  origLayer : CNNLayer;
  inputs : DataVector;
  outputs : DataVector
}.

Definition numInputs (st : Stage) : nat := length (inputs st).
Definition numOutputs (st : Stage) : nat := length (outputs st).

(** [input(i)] and [output(i)] of [StageNode]: the accessors are outside this
    file; an index with no edge is a contract violation. *)
Definition input (st : Stage) (i : nat) : outcome Data :=
  match inputs st !! i with
  | Some d => Ok d
  | None => Throw (EdgeIndexOutOfRange (name st) i)
  end.

Definition output (st : Stage) (i : nat) : outcome Data :=
  match outputs st !! i with
  | Some d => Ok d
  | None => Throw (EdgeIndexOutOfRange (name st) i)
  end.

(** The graph container: the tensors and stages it owns. *)
Record Model := mkModel {
  datas : list Data;
  stages : list Stage
}.

(** ** Blob serializer *)

Inductive BlobItem :=
  | UInt32 (v : Z)
  | BufferRef (d : Data).

Abbreviation BlobSerializer := (list BlobItem).

(** [serializer.append(std::uint32_t)] *)
Definition append (serializer : BlobSerializer) (v : Z) : BlobSerializer :=
  (serializer ++ [UInt32 v])%list.

(** [data->serializeBuffer(serializer)] *)
Definition serializeBuffer (d : Data) (serializer : BlobSerializer) : BlobSerializer :=
  (serializer ++ [BufferRef d])%list.

Definition itemBytes (it : BlobItem) : option Z :=
  match it with
  | UInt32 _ => Some 4
  | BufferRef _ => None
  end.

(** Number of bytes of a block made of scalars only. *)
Fixpoint scalarBytes (items : list BlobItem) : option Z :=
  match items with
  | [] => Some 0
  | it :: rest =>
      n ← itemBytes it; m ← scalarBytes rest; Some (n + m)
  end.

(** ** The stage *)

(** [EnumSet<DataType>] *)
Abbreviation EnumSet := (list DataType).

(** Modelled from the spec: [assertInputsOutputsTypes] is defined with the
    stage base class, not in this file. Section 4.3 has it require of each
    checked tensor an element type among those expected at its position; one
    expectation per tensor is what the caller builds. *)
Fixpoint assertTypes (stageName : string) (idx : nat)
    (expectedTypes : list EnumSet) (ds : DataVector) : outcome unit :=
  match expectedTypes, ds with
  | [], [] => Ok tt
  | possibleTypes :: expectedTypes', d :: ds' =>
      VPU_THROW_UNLESS (bool_decide (dataType (desc d) ∈ possibleTypes))
        (UnexpectedDataType stageName idx (dataType (desc d)));;
      assertTypes stageName (S idx) expectedTypes' ds'
  | _, _ => Throw (TypesCountMismatch stageName)
  end.

Definition assertInputsOutputsTypes (st : Stage)
    (expectedInputsTypes expectedOutputsTypes : list EnumSet) : outcome unit :=
  assertTypes (name st) 0 expectedInputsTypes (inputs st);;
  assertTypes (name st) 0 expectedOutputsTypes (outputs st).

(** Modelled from the spec: the copy constructor of the stage is inherited
    from [StageNode], which is not in this file. Section 4.6: the copy is an
    independent stage with identical scalar fields and the same (shared, not
    copied) tensor references. *)
Definition copyStage (other : Stage) : Stage :=
  {| name := name other;
     type := type other;
     origLayer := origLayer other;
     inputs := inputs other;
     outputs := outputs other |}.

(** Stages are shared objects: a heap maps the address of each live stage to
    its state. [std::make_shared<StridedSliceStage>(other)] makes a new
    object, at an address no live object has, constructed as a copy of
    [other]. *)
Definition make_shared (heap : gmap nat Stage) (other : Stage)
    : nat * gmap nat Stage :=
  let p := fresh (dom heap) in
  (p, <[p := copyStage other]> heap).

(** [cloneImpl], called on the live stage at address [this]: the pointer to a
    new shared stage copy-constructed from this one. There is no call on
    an address that holds no stage. *)
Definition cloneImpl (heap : gmap nat Stage) (this : nat)
    : option (nat * gmap nat Stage) :=
  st ← heap !! this;
  Some (make_shared heap st).

Definition initialCheckImpl (st : Stage) : outcome unit :=
  VPU_THROW_UNLESS ((numInputs st =? 3)%nat || (numInputs st =? 4)%nat)
    (CheckNumInputs (name st) (type st) (numInputs st));;
  VPU_THROW_UNLESS (numOutputs st =? 1)%nat
    (CheckNumOutputs (name st) (type st) (numOutputs st));;
  input0 ← input st 0;
  let input0DataType := dataType (desc input0) in
  let expectedInputs3Types := [[input0DataType]; [S32]; [S32]] in
  let expectedInputs4Types := [[input0DataType]; [S32]; [S32]; [S32]] in
  assertInputsOutputsTypes st
    (if (numInputs st =? 3)%nat then expectedInputs3Types else expectedInputs4Types)
    [[input0DataType]].

Definition serializeParamsImpl (st : Stage) (serializer : BlobSerializer)
    : outcome BlobSerializer :=
  let beginMask := GetParamAsString (origLayer st) "begin_mask" "" in
  let endMask := GetParamAsString (origLayer st) "end_mask" "" in
  b ← maskStrToInt beginMask;
  let serializer := append serializer b in
  e ← maskStrToInt endMask;
  let serializer := append serializer e in
  Ok serializer.

Definition serializeDataImpl (st : Stage) (serializer : BlobSerializer)
    : outcome BlobSerializer :=
  i0 ← input st 0; let serializer := serializeBuffer i0 serializer in
  i1 ← input st 1; let serializer := serializeBuffer i1 serializer in
  i2 ← input st 2; let serializer := serializeBuffer i2 serializer in
  i3 ← input st 3; let serializer := serializeBuffer i3 serializer in
  o0 ← output st 0; let serializer := serializeBuffer o0 serializer in
  Ok serializer.

(** The code generator runs the two encoders one after the other. *)
Definition serialize (st : Stage) (serializer : BlobSerializer)
    : outcome BlobSerializer :=
  serializer ← serializeParamsImpl st serializer;
  serializeDataImpl st serializer.

(** ** The frontend *)

(** Modelled from the spec: [model->addNewStage<StridedSliceStage>(name, type,
    layer, inputs, outputs)] belongs to the graph container, which is not in
    this file. Section 4.2: a new stage instance is registered into the graph
    under the layer's name and the stage-type tag, wired to the input list and
    the output list. *)
Definition addNewStage (model : Model) (stageName : string) (stageType : StageType)
    (layer : CNNLayer) (ins outs : DataVector) : Stage * Model :=
  let st := mkStage stageName stageType layer ins outs in
  (st, mkModel (datas model) (stages model ++ [st])%list).

(** The loop over the strides, lines 127-131, from index [i] with [n]
    elements still to check. *)
Fixpoint stridesLoop (layer : CNNLayer) (stridesPtr : nat -> Z) (i n : nat)
    : outcome unit :=
  match n with
  | O => Ok tt
  | S n' =>
      VPU_THROW_UNLESS (stridesPtr i >? 0)
        (NegativeStride (layerName layer) (layerType layer));;
      stridesLoop layer stridesPtr (S i) n'
  end.

Section Frontend.

(** The element type the container gives its placeholder tensors. *)
Variable fakeDataType : DataType.

(** Modelled from the spec: [model->addFakeData()] belongs to the graph
    container, which is not in this file. Section 4.2: the placeholder is a
    "no data" marker obtained from the container, which carries no
    dimensions and no content. Its element type is not stated and is left
    open. *)
Definition addFakeData (model : Model) : Data * Model :=
  let d := mkData Fake (mkDataDesc fakeDataType []) None in
  (d, mkModel (datas model ++ [d])%list (stages model)).

Definition parseStridedSlice (model : Model) (layer : CNNLayer)
    (ins outs : DataVector) : outcome Model :=
  VPU_THROW_UNLESS ((length ins =? 3)%nat || (length ins =? 4)%nat)
    (ParseNumInputs (layerName layer) (layerType layer) (length ins));;
  VPU_THROW_UNLESS (length outs =? 1)%nat
    (ParseNumOutputs (layerName layer) (layerType layer) (length outs));;
  let newAxisMask := GetParamAsString layer "new_axis_mask" "" in
  newAxis ← maskStrToInt newAxisMask;
  VPU_THROW_UNLESS (newAxis =? 0)
    (MaskNotSupported (layerName layer) (layerType layer) "new_axis_mask");;
  let shrinkAxisMask := GetParamAsString layer "shrink_axis_mask" "" in
  shrinkAxis ← maskStrToInt shrinkAxisMask;
  VPU_THROW_UNLESS (shrinkAxis =? 0)
    (MaskNotSupported (layerName layer) (layerType layer) "shrink_axis_mask");;
  let ellipsisMask := GetParamAsString layer "ellipsis_mask" "" in
  ellipsis ← maskStrToInt ellipsisMask;
  VPU_THROW_UNLESS (ellipsis =? 0)
    (MaskNotSupported (layerName layer) (layerType layer) "ellipsis_mask");;
  '(extendedInputs, model) ←
    (if (length ins =? 3)%nat then
       let '(fake, model) := addFakeData model in
       Ok ((ins ++ [fake])%list, model)
     else
       match ins !! 3%nat with
       | None => Undefined
       | Some strides =>
           (* strides->content()->get<int32_t>(): the pointer content()
              returns is dereferenced, null or not *)
           match content strides with
           | None => Undefined
           | Some stridesContent =>
               match getS32 stridesContent with
               | None =>
                   Throw (StridesPointerNull (layerName layer) (layerType layer))
               | Some stridesPtr =>
                   stridesLoop layer stridesPtr 0
                     (Z.to_nat (totalDimSize (desc strides)));;
                   Ok (ins, model)
               end
           end
       end);
  Ok (snd (addNewStage model (layerName layer) StridedSlice layer
             extendedInputs outs)).

End Frontend.

(** ** Vocabulary of the statements *)

(** The three attributes whose nonzero encoding the frontend refuses. *)
Definition newAxisOf (layer : CNNLayer) : outcome Z :=
  maskStrToInt (GetParamAsString layer "new_axis_mask" "").
Definition shrinkAxisOf (layer : CNNLayer) : outcome Z :=
  maskStrToInt (GetParamAsString layer "shrink_axis_mask" "").
Definition ellipsisOf (layer : CNNLayer) : outcome Z :=
  maskStrToInt (GetParamAsString layer "ellipsis_mask" "").

(** The stage the frontend registers for [layer] over the inputs [ext]. *)
Definition stageOf (layer : CNNLayer) (ext outs : DataVector) : Stage :=
  mkStage (layerName layer) StridedSlice layer ext outs.

(** The last stage added to a model. *)
Definition constructedStage (model : Model) : option Stage := last (stages model).

Definition arityOk (ins outs : DataVector) : Prop :=
  (length ins = 3%nat \/ length ins = 4%nat) /\ length outs = 1%nat.

(** The stage has the shape section 4.3 of the specification asks for. *)
Definition wellFormedStage (st : Stage) : bool :=
  ((numInputs st =? 3)%nat || (numInputs st =? 4)%nat) &&
  (numOutputs st =? 1)%nat &&
  match inputs st !! 0%nat, outputs st !! 0%nat with
  | Some in0, Some out0 =>
      bool_decide (dataType (desc in0) = dataType (desc out0))
  | _, _ => false
  end &&
  forallb (fun d => bool_decide (dataType (desc d) = S32)) (drop 1 (inputs st)).

(** A mask text the codec encodes: good characters, at most 32 flags. *)
Definition wellFormedMask (mask : string) : Prop :=
  onlyMaskChars mask = true /\ (length (flagChars mask) <= 32)%nat.

(** ** Sample tensors and layers *)

Definition arrayOf (l : list Z) : nat -> Z := fun i => nth i l 0.

(** Constant content read as the [int32_t] array [ptr]. *)
Definition int32Content (ptr : nat -> Z) : option DataContent :=
  Some (mkDataContent (Some ptr)).

Definition dataT : Data := mkData Input (mkDataDesc FP16 [1; 3; 8; 8]) None.
Definition beginT : Data :=
  mkData Const (mkDataDesc S32 [4]) (int32Content (arrayOf [0; 0; 2; 2])).
Definition endT : Data :=
  mkData Const (mkDataDesc S32 [4]) (int32Content (arrayOf [1; 3; 6; 6])).
Definition stridesT : Data :=
  mkData Const (mkDataDesc S32 [4]) (int32Content (arrayOf [1; 1; 2; 2])).
Definition zeroStrideT : Data :=
  mkData Const (mkDataDesc S32 [4]) (int32Content (arrayOf [1; 0; 2; -1])).
Definition runtimeStridesT : Data :=
  mkData Intermediate (mkDataDesc S32 [4]) None.

(** Constant content that gives no [int32_t] pointer. *)
Definition untypedStridesT : Data :=
  mkData Const (mkDataDesc S32 [4]) (Some (mkDataContent None)).
Definition outT : Data := mkData Output (mkDataDesc FP16 [1; 3; 2; 2]) None.

Definition sliceLayer (ps : list (string * string)) : CNNLayer :=
  mkCNNLayer "slice" "StridedSlice" (list_to_map ps).

Definition emptyModel : Model := mkModel [] [].

(** A stage as the frontend registers it for four inputs, and one nobody
    extended to four inputs. *)
Definition fourInputStage : Stage :=
  stageOf (sliceLayer [("begin_mask", "1,0,0,0"); ("end_mask", "0,0,1,1")])
    [dataT; beginT; endT; stridesT] [outT].

Definition threeInputStage : Stage :=
  stageOf (sliceLayer []) [dataT; beginT; endT] [outT].

(** A stage whose input #3 is the placeholder of a container that types its
    placeholders as [S32]. *)
Definition placeholderStage : Stage :=
  stageOf (sliceLayer [("begin_mask", "1,0,0,0"); ("end_mask", "0,0,1,1")])
    [dataT; beginT; endT; fst (addFakeData S32 emptyModel)] [outT].

(** ** Vocabulary of the further properties *)

(** A mask text without its separators. *)
Definition stripSeparators (mask : string) : string :=
  string_of_list_ascii (flagChars mask).

(** No flag from index [n] on is ['1']. *)
Definition noneSetFrom (n : nat) (mask : string) : bool :=
  forallb (fun c => negb (Ascii.eqb c "1")) (drop n (flagChars mask)).

(** What a call did, without the value it returned. *)
Definition verdict {A} (o : outcome A) : outcome unit :=
  match o with
  | Ok _ => Ok tt
  | Throw e => Throw e
  | Undefined => Undefined
  end.

#[global] Instance outcome_fmap : FMap outcome := fun _ _ f m =>
  match m with
  | Ok a => Ok (f a)
  | Throw e => Throw e
  | Undefined => Undefined
  end.

(** Forty flags, the three set ones among the first 32. *)
Definition flags40 : string :=
  "101,0000000000000,0000000000000001,00000000".

(** A strides tensor with a dimension of size 0, and content that would be
    refused if it were read. *)
Definition emptyStridesT : Data :=
  mkData Const (mkDataDesc S32 [0]) (int32Content (arrayOf [-1; 0])).

(** A stage with more inputs and outputs than the encoder reads. *)
Definition wideStage : Stage :=
  stageOf (sliceLayer []) [dataT; beginT; endT; stridesT; zeroStrideT] [outT; dataT].

(** Two live stages, at the addresses 0 and 3. *)
Definition twoStages : gmap nat Stage :=
  <[0%nat := fourInputStage]> (<[3%nat := wideStage]> ∅).

(** * Properties *)

(** ** Machine integers *)

Lemma toUInt32_toInt z : toUInt32 (toInt z) = z mod 2 ^ 32.
Proof.
  unfold toUInt32, toInt.
  rewrite Zminus_mod_idemp_l.
  f_equal. lia.
Qed.

Lemma shlInt_one idx :
  0 <= idx < 32 -> shlInt 1 idx = Some (toInt (2 ^ idx)).
Proof.
  intros Hidx. unfold shlInt.
  rewrite Z.shiftl_1_l.
  assert (2 ^ idx < 2 ^ 32) by (apply Z.pow_lt_mono_r; lia).
  replace (0 <=? idx) with true by (symmetry; apply Z.leb_le; lia).
  replace (idx <? 32) with true by (symmetry; apply Z.ltb_lt; lia).
  replace (2 ^ idx <? 2 ^ 32) with true by (symmetry; apply Z.ltb_lt; lia).
  reflexivity.
Qed.

Lemma shlInt_one_bit idx :
  0 <= idx < 32 -> toUInt32 (toInt (2 ^ idx)) = 2 ^ idx.
Proof.
  intros Hidx. rewrite toUInt32_toInt.
  apply Z.mod_small. split; [apply Z.pow_nonneg; lia|].
  apply Z.pow_lt_mono_r; lia.
Qed.

(** A non-negative number with no bit at or above [n] is below [2^n]. *)
Lemma bits_above_bound r n :
  0 <= n -> 0 <= r ->
  (forall j, n <= j -> Z.testbit r j = false) ->
  r < 2 ^ n.
Proof.
  intros Hn Hr Hbits.
  destruct (Z.eq_dec r 0) as [-> | Hne]; [apply Z.pow_pos_nonneg; lia|].
  destruct (Z.lt_ge_cases r (2 ^ n)) as [|Hge]; [assumption|exfalso].
  assert (Hlog : n <= Z.log2 r) by (apply Z.log2_le_pow2; lia).
  specialize (Hbits _ Hlog).
  rewrite Z.bit_log2 in Hbits by lia. discriminate.
Qed.

(** ** Mask codec *)

(** The three good characters, by cases. *)
Lemma isMaskChar_cases c :
  isMaskChar c = true -> c = ","%char \/ c = "1"%char \/ c = "0"%char.
Proof.
  unfold isMaskChar. intros H.
  apply orb_prop in H as [H|H]; [apply orb_prop in H as [H|H]|];
    apply Ascii.eqb_eq in H; auto.
Qed.

(** The invariant of the loop: below [idx] the accumulator is left alone,
    from [idx] on the bits are the flags still to be read. *)
Lemma maskLoop_bits mask : forall result idx,
  onlyMaskChars mask = true ->
  0 <= idx ->
  idx + Z.of_nat (length (flagChars mask)) <= 32 ->
  0 <= result ->
  (forall j, idx <= j -> Z.testbit result j = false) ->
  exists r,
    maskLoop mask result idx = Ok r /\ 0 <= r /\
    forall j, 0 <= j ->
      Z.testbit r j =
        if j <? idx then Z.testbit result j
        else bool_decide (flagChars mask !! Z.to_nat (j - idx) = Some "1"%char).
Proof.
  induction mask as [|c rest IH]; intros result idx Hok Hidx Hlen Hres Hhigh.
  - exists result. repeat split; [assumption|].
    intros j Hj. cbn. destruct (j <? idx) eqn:E; [reflexivity|].
    apply Z.ltb_ge in E. rewrite Hhigh by assumption.
    symmetry. apply bool_decide_eq_false. discriminate.
  - cbn in Hok. apply andb_prop in Hok as [Hc Hrest].
    apply isMaskChar_cases in Hc as [-> | [-> | ->]]; cbn in Hlen |- *.
    + (* the separator *)
      apply IH; assumption.
    + (* '1' *)
      rewrite shlInt_one, shlInt_one_bit by lia.
      destruct (IH (Z.lor result (2 ^ idx)) (idx + 1)) as (r & Hr & Hr0 & Hbits);
        try assumption; try lia.
      * apply Z.lor_nonneg. split; [assumption|apply Z.pow_nonneg; lia].
      * intros j Hj. rewrite Z.lor_spec, Hhigh by lia.
        rewrite Z.pow2_bits_eqb by lia.
        replace (idx =? j) with false by (symmetry; apply Z.eqb_neq; lia).
        reflexivity.
      * exists r. repeat split; [assumption..|].
        intros j Hj. rewrite Hbits by assumption.
        destruct (j <? idx) eqn:E1.
        -- apply Z.ltb_lt in E1.
           replace (j <? idx + 1) with true by (symmetry; apply Z.ltb_lt; lia).
           rewrite Z.lor_spec, Z.pow2_bits_eqb by lia.
           replace (idx =? j) with false by (symmetry; apply Z.eqb_neq; lia).
           apply orb_false_r.
        -- apply Z.ltb_ge in E1.
           destruct (Z.eq_dec j idx) as [-> | Hne].
           ++ replace (idx <? idx + 1) with true by (symmetry; apply Z.ltb_lt; lia).
              rewrite Z.lor_spec, Z.pow2_bits_eqb, Z.eqb_refl, orb_true_r by lia.
              rewrite Z.sub_diag. reflexivity.
           ++ replace (j <? idx + 1) with false by (symmetry; apply Z.ltb_ge; lia).
              replace (Z.to_nat (j - idx)) with (S (Z.to_nat (j - (idx + 1)))) by lia.
              reflexivity.
    + (* '0' *)
      replace (idx <? INT_MAX) with true
        by (symmetry; apply Z.ltb_lt; unfold INT_MAX; lia).
      destruct (IH result (idx + 1)) as (r & Hr & Hr0 & Hbits);
        try assumption; try lia.
      * intros j Hj. apply Hhigh. lia.
      * exists r. repeat split; [assumption..|].
        intros j Hj. rewrite Hbits by assumption.
        destruct (j <? idx) eqn:E1.
        -- apply Z.ltb_lt in E1.
           replace (j <? idx + 1) with true by (symmetry; apply Z.ltb_lt; lia).
           reflexivity.
        -- apply Z.ltb_ge in E1.
           destruct (Z.eq_dec j idx) as [-> | Hne].
           ++ replace (idx <? idx + 1) with true by (symmetry; apply Z.ltb_lt; lia).
              rewrite Z.sub_diag, Hhigh by lia. reflexivity.
           ++ replace (j <? idx + 1) with false by (symmetry; apply Z.ltb_ge; lia).
              replace (Z.to_nat (j - idx)) with (S (Z.to_nat (j - (idx + 1)))) by lia.
              reflexivity.
Qed.

Lemma isMaskChar_false c :
  isMaskChar c = false ->
  Ascii.eqb c "," = false /\ Ascii.eqb c "1" = false /\ Ascii.eqb c "0" = false.
Proof.
  unfold isMaskChar. intros H.
  apply orb_false_elim in H as [H H0]. apply orb_false_elim in H as [Hc H1].
  auto.
Qed.

(** The loop stops at the first character that is none of the three. *)
Lemma maskLoop_badChar mask : forall result idx,
  onlyMaskChars mask = false ->
  0 <= idx ->
  idx + Z.of_nat (length (flagChars mask)) <= 32 ->
  exists pre c post,
    mask = pre ++ String c post /\ onlyMaskChars pre = true /\
    isMaskChar c = false /\
    maskLoop mask result idx = Throw (UnsupportedMaskValue c).
Proof.
  induction mask as [|a rest IH]; intros result idx Hbad Hidx Hlen.
  - discriminate.
  - cbn in Hbad. destruct (isMaskChar a) eqn:Ha.
    + cbn in Hbad.
      assert (Hstep : forall result' idx',
                 0 <= idx' -> idx' + Z.of_nat (length (flagChars rest)) <= 32 ->
                 maskLoop (String a rest) result idx = maskLoop rest result' idx' ->
                 exists pre c post,
                   String a rest = pre ++ String c post /\ onlyMaskChars pre = true /\
                   isMaskChar c = false /\
                   maskLoop (String a rest) result idx = Throw (UnsupportedMaskValue c)).
      { intros result' idx' Hidx' Hlen' Heq.
        destruct (IH result' idx' Hbad Hidx' Hlen') as (pre & c & post & -> & Hpre & Hc & Hthrow).
        exists (String a pre), c, post. repeat split; [|assumption|congruence].
        cbn. rewrite Ha, Hpre. reflexivity. }
      apply isMaskChar_cases in Ha as [-> | [-> | ->]]; cbn in Hlen.
      * apply (Hstep result idx); [lia..|reflexivity].
      * apply (Hstep (Z.lor result (2 ^ idx)) (idx + 1)); [lia..|].
        cbn. rewrite shlInt_one, shlInt_one_bit by lia. reflexivity.
      * apply (Hstep result (idx + 1)); [lia..|].
        cbn. replace (idx <? INT_MAX) with true
          by (symmetry; apply Z.ltb_lt; unfold INT_MAX; lia).
        reflexivity.
    + exists EmptyString, a, rest. repeat split; [assumption|].
      apply isMaskChar_false in Ha as (Hc & H1 & H0).
      cbn. rewrite Hc, H1, H0. reflexivity.
Qed.

Lemma maskStrToInt_encodes mask :
  onlyMaskChars mask = true ->
  (length (flagChars mask) <= 32)%nat ->
  exists r, maskStrToInt mask = Ok r /\ encodes mask r.
Proof.
  intros Hok Hlen.
  destruct (maskLoop_bits mask 0 0) as (r & Hr & Hr0 & Hbits);
    try assumption; try lia.
  { intros j _. apply Z.bits_0. }
  assert (Hflag : forall i : nat,
             Z.testbit r (Z.of_nat i) = true <-> flagChars mask !! i = Some "1"%char).
  { intros i. rewrite Hbits by lia.
    replace (Z.of_nat i <? 0) with false by (symmetry; apply Z.ltb_ge; lia).
    rewrite Z.sub_0_r, Nat2Z.id. apply bool_decide_eq_true. }
  exists r. split; [assumption|]. split; [|assumption].
  split; [assumption|].
  apply bits_above_bound; [lia|assumption|].
  intros j Hj. destruct (Z.testbit r j) eqn:E; [exfalso|reflexivity].
  rewrite <- (Z2Nat.id j) in E by lia.
  apply Hflag in E. apply lookup_lt_Some in E. lia.
Qed.

(** C1 (amended). For every mask text with at most 32 non-separator
    characters: if it consists only of ['0'], ['1'] and [','], [maskStrToInt]
    returns a 32-bit unsigned value whose bit [i] is set iff the [i]-th
    non-separator character is ['1']; if it contains any other character,
    [maskStrToInt] throws the format error naming the first such character.
    The empty text gives 0, ["1,0,1"] gives 5, ["0,0,1,0"] gives 4. *)
Theorem maskStrToInt_characterization :
  (forall mask : string,
     (length (flagChars mask) <= 32)%nat ->
     (onlyMaskChars mask = true ->
        exists r, maskStrToInt mask = Ok r /\ encodes mask r) /\
     (onlyMaskChars mask = false ->
        exists pre c post,
          mask = pre ++ String c post /\ onlyMaskChars pre = true /\
          isMaskChar c = false /\
          maskStrToInt mask = Throw (UnsupportedMaskValue c) /\
          throwsKind (maskStrToInt mask) FormatError)) /\
  maskStrToInt "" = Ok 0 /\
  maskStrToInt "1,0,1" = Ok 5 /\
  maskStrToInt "0,0,1,0" = Ok 4.
Proof.
  split; [|repeat split].
  intros mask Hlen. split; intros Hchars.
  - apply maskStrToInt_encodes; assumption.
  - destruct (maskLoop_badChar mask 0 0 Hchars) as (pre & c & post & Hm & Hpre & Hc & Ht);
      [lia..|].
    exists pre, c, post. repeat split; try assumption.
    exists (UnsupportedMaskValue c). split; [assumption|reflexivity].
Qed.

(** The characterization at a text of three flags and at one with a bad
    character. *)
Lemma maskStrToInt_characterization_witness :
  (exists r, maskStrToInt "0,1,1" = Ok r /\ encodes "0,1,1" r) /\
  (exists pre c post,
     "1,x,0" = pre ++ String c post /\ onlyMaskChars pre = true /\
     isMaskChar c = false /\
     maskStrToInt "1,x,0" = Throw (UnsupportedMaskValue c) /\
     throwsKind (maskStrToInt "1,x,0") FormatError).
Proof.
  split.
  - apply (proj1 maskStrToInt_characterization "0,1,1"); [cbn; lia|reflexivity].
  - apply (proj1 maskStrToInt_characterization "1,x,0"); [cbn; lia|reflexivity].
Defined.

(** C1 as stated fails beyond 32 flags: the text has only good characters,
    yet no 32-bit value has the bit of its flag 32, and the shift that would
    set it is undefined; the same prefix followed by a bad character does not
    reach the format error. *)
Lemma maskStrToInt_flags33 :
  onlyMaskChars flags33 = true /\
  flagChars flags33 !! 32%nat = Some "1"%char /\
  ~ (exists r, encodes flags33 r) /\
  maskStrToInt flags33 = Undefined /\
  onlyMaskChars (flags33 ++ "x") = false /\
  maskStrToInt (flags33 ++ "x") = Undefined.
Proof.
  split; [reflexivity|]. split; [reflexivity|]. split; [|repeat split].
  intros (r & (Hr0 & Hr) & Hbits).
  assert (Hset : Z.testbit r (Z.of_nat 32) = true) by (apply Hbits; reflexivity).
  destruct (Z.eq_dec r 0) as [-> | Hne]; [discriminate|].
  rewrite Z.bits_above_log2 in Hset; [discriminate|lia|].
  apply Z.log2_lt_pow2; cbn; lia.
Qed.

(** ** Frontend *)

Lemma arity_inputs_test (ins : DataVector) :
  ((length ins =? 3)%nat || (length ins =? 4)%nat) = true <->
  (length ins = 3%nat \/ length ins = 4%nat).
Proof.
  rewrite orb_true_iff, !Nat.eqb_eq. reflexivity.
Qed.

Lemma stridesLoop_ok layer ptr : forall n i,
  (forall j, (i <= j < i + n)%nat -> 0 < ptr j) ->
  stridesLoop layer ptr i n = Ok tt.
Proof.
  induction n as [|n IH]; intros i Hpos; [reflexivity|].
  cbn. replace (ptr i >? 0) with true
    by (symmetry; apply Z.gtb_lt, Hpos; lia).
  cbn. apply IH. intros j Hj. apply Hpos. lia.
Qed.

Lemma stridesLoop_fail layer ptr : forall n i k,
  (i <= k < i + n)%nat ->
  (forall j, (i <= j < k)%nat -> 0 < ptr j) ->
  ptr k <= 0 ->
  stridesLoop layer ptr i n =
    Throw (NegativeStride (layerName layer) (layerType layer)).
Proof.
  induction n as [|n IH]; intros i k Hk Hbefore Hbad; [lia|].
  cbn. destruct (Nat.eq_dec i k) as [-> | Hne].
  - replace (ptr k >? 0) with false; [reflexivity|].
    symmetry. rewrite Z.gtb_ltb. apply Z.ltb_ge. assumption.
  - replace (ptr i >? 0) with true
      by (symmetry; apply Z.gtb_lt, Hbefore; lia).
    cbn. apply (IH (S i) k); [lia| |assumption].
    intros j Hj. apply Hbefore. lia.
Qed.

Lemma stridesLoop_inv layer ptr : forall n i u,
  stridesLoop layer ptr i n = Ok u ->
  forall j, (i <= j < i + n)%nat -> 0 < ptr j.
Proof.
  induction n as [|n IH]; intros i u Hok j Hj; [lia|].
  cbn in Hok. destruct (ptr i >? 0) eqn:E; [|discriminate].
  cbn in Hok. destruct (Nat.eq_dec i j) as [<- | Hne].
  - apply Z.gtb_lt. assumption.
  - apply (IH (S i) u Hok). lia.
Qed.

(** Either some element in range is not positive, the first one then, or all are. *)
Lemma first_nonpositive (ptr : nat -> Z) : forall n i,
  (forall j, (i <= j < i + n)%nat -> 0 < ptr j) \/
  (exists k, (i <= k < i + n)%nat /\ ptr k <= 0 /\
             forall j, (i <= j < k)%nat -> 0 < ptr j).
Proof.
  induction n as [|n IH]; intros i; [left; intros j Hj; lia|].
  destruct (Z_lt_le_dec 0 (ptr i)) as [Hpos | Hbad].
  - destruct (IH (S i)) as [Hall | (k & Hk & Hkbad & Hbefore)].
    + left. intros j Hj. destruct (Nat.eq_dec i j) as [<- | Hne];
        [assumption|apply Hall; lia].
    + right. exists k. repeat split; [lia..|assumption|].
      intros j Hj. destruct (Nat.eq_dec i j) as [<- | Hne];
        [assumption|apply Hbefore; lia].
  - right. exists i. repeat split; [lia..|assumption|]. intros j Hj. lia.
Qed.

(** Past the arity and mask checks, what is left of [parseStridedSlice]. *)
Lemma parseStridedSlice_checked ft model layer ins outs :
  arityOk ins outs ->
  newAxisOf layer = Ok 0 -> shrinkAxisOf layer = Ok 0 -> ellipsisOf layer = Ok 0 ->
  parseStridedSlice ft model layer ins outs =
    if (length ins =? 3)%nat then
      Ok (snd (addNewStage (snd (addFakeData ft model)) (layerName layer)
                 StridedSlice layer (ins ++ [fst (addFakeData ft model)])%list outs))
    else
      match ins !! 3%nat with
      | None => Undefined
      | Some strides =>
          match content strides with
          | None => Undefined
          | Some stridesContent =>
              match getS32 stridesContent with
              | None => Throw (StridesPointerNull (layerName layer) (layerType layer))
              | Some stridesPtr =>
                  stridesLoop layer stridesPtr 0
                    (Z.to_nat (totalDimSize (desc strides)));;
                  Ok (snd (addNewStage model (layerName layer) StridedSlice layer
                             ins outs))
              end
          end
      end.
Proof.
  intros [Hins Houts] Hnew Hshrink Hell.
  unfold parseStridedSlice.
  unfold newAxisOf in Hnew. unfold shrinkAxisOf in Hshrink. unfold ellipsisOf in Hell.
  apply arity_inputs_test in Hins. rewrite Hins.
  apply Nat.eqb_eq in Houts. rewrite Houts.
  cbn. rewrite Hnew. cbn. rewrite Hshrink. cbn. rewrite Hell. cbn.
  destruct (length ins =? 3)%nat; [reflexivity|].
  destruct (ins !! 3%nat) as [strides|]; [|reflexivity].
  destruct (content strides) as [stridesContent|]; [|reflexivity].
  destruct (getS32 stridesContent) as [ptr|]; [|reflexivity].
  cbn. destruct (stridesLoop layer ptr 0 _); reflexivity.
Qed.

(** What a successful translation went through. *)
Lemma parseStridedSlice_inv ft model layer ins outs model' :
  parseStridedSlice ft model layer ins outs = Ok model' ->
  arityOk ins outs /\
  newAxisOf layer = Ok 0 /\ shrinkAxisOf layer = Ok 0 /\ ellipsisOf layer = Ok 0.
Proof.
  unfold parseStridedSlice, arityOk, newAxisOf, shrinkAxisOf, ellipsisOf.
  intros H.
  destruct ((length ins =? 3)%nat || (length ins =? 4)%nat) eqn:Hins;
    [|discriminate].
  apply arity_inputs_test in Hins.
  destruct (length outs =? 1)%nat eqn:Houts; [|discriminate].
  apply Nat.eqb_eq in Houts. cbn in H.
  destruct (maskStrToInt (GetParamAsString layer "new_axis_mask" "")) as [n| |];
    [|discriminate..].
  cbn in H. destruct (n =? 0) eqn:Hn; [|discriminate].
  apply Z.eqb_eq in Hn as ->. cbn in H.
  destruct (maskStrToInt (GetParamAsString layer "shrink_axis_mask" "")) as [s| |];
    [|discriminate..].
  cbn in H. destruct (s =? 0) eqn:Hs; [|discriminate].
  apply Z.eqb_eq in Hs as ->. cbn in H.
  destruct (maskStrToInt (GetParamAsString layer "ellipsis_mask" "")) as [e| |];
    [|discriminate..].
  cbn in H. destruct (e =? 0) eqn:He; [|discriminate].
  apply Z.eqb_eq in He as ->.
  auto.
Qed.

(** C8. With an input list of length other than 3 or 4, or an output list of
    length other than 1, [parseStridedSlice] throws an arity error, and the
    same one whatever the layer's parameters, the tensors in the lists, the
    model and the placeholder type are: nothing but the two lengths (and the
    layer's name and type, for the message) is looked at. *)
Theorem parseStridedSlice_arity_first ft model layer ins outs :
  (length ins <> 3%nat /\ length ins <> 4%nat) \/ length outs <> 1%nat ->
  exists e,
    errorKind e = ArityError /\
    parseStridedSlice ft model layer ins outs = Throw e /\
    forall ft' model' params' (ins' outs' : DataVector),
      length ins' = length ins -> length outs' = length outs ->
      parseStridedSlice ft' model'
        (mkCNNLayer (layerName layer) (layerType layer) params') ins' outs' = Throw e.
Proof.
  intros Harity.
  destruct ((length ins =? 3)%nat || (length ins =? 4)%nat) eqn:Hins.
  - destruct (length outs =? 1)%nat eqn:Houts.
    + exfalso. apply arity_inputs_test in Hins. apply Nat.eqb_eq in Houts. lia.
    + exists (ParseNumOutputs (layerName layer) (layerType layer) (length outs)).
      split; [reflexivity|]. split.
      * unfold parseStridedSlice. rewrite Hins, Houts. reflexivity.
      * intros ft' model' params' ins' outs' Hi Ho.
        unfold parseStridedSlice. rewrite Hi, Ho, Hins, Houts. reflexivity.
  - exists (ParseNumInputs (layerName layer) (layerType layer) (length ins)).
    split; [reflexivity|]. split.
    + unfold parseStridedSlice. rewrite Hins. reflexivity.
    + intros ft' model' params' ins' outs' Hi Ho.
      unfold parseStridedSlice. rewrite Hi, Hins. reflexivity.
Qed.

(** Two inputs. *)
Lemma parseStridedSlice_arity_first_witness :
  exists e,
    errorKind e = ArityError /\
    parseStridedSlice FP16 emptyModel (sliceLayer []) [dataT; beginT] [outT] = Throw e /\
    forall ft' model' params' (ins' outs' : DataVector),
      length ins' = 2%nat -> length outs' = 1%nat ->
      parseStridedSlice ft' model' (mkCNNLayer "slice" "StridedSlice" params') ins' outs'
        = Throw e.
Proof.
  apply (parseStridedSlice_arity_first FP16 emptyModel (sliceLayer [])
           [dataT; beginT] [outT]).
  cbn. lia.
Defined.

(** The start of [parseStridedSlice] once the arity checks have passed. *)
Lemma parseStridedSlice_new_axis_nonzero ft model layer ins outs n :
  arityOk ins outs -> newAxisOf layer = Ok n -> n <> 0 ->
  parseStridedSlice ft model layer ins outs =
    Throw (MaskNotSupported (layerName layer) (layerType layer) "new_axis_mask").
Proof.
  intros [Hins Houts] Hnew Hn. unfold parseStridedSlice.
  unfold newAxisOf in Hnew.
  apply arity_inputs_test in Hins. rewrite Hins.
  apply Nat.eqb_eq in Houts. rewrite Houts.
  cbn. rewrite Hnew. cbn.
  apply Z.eqb_neq in Hn. rewrite Hn. reflexivity.
Qed.

Lemma parseStridedSlice_shrink_axis_nonzero ft model layer ins outs n :
  arityOk ins outs -> newAxisOf layer = Ok 0 -> shrinkAxisOf layer = Ok n -> n <> 0 ->
  parseStridedSlice ft model layer ins outs =
    Throw (MaskNotSupported (layerName layer) (layerType layer) "shrink_axis_mask").
Proof.
  intros [Hins Houts] Hnew Hshrink Hn. unfold parseStridedSlice.
  unfold newAxisOf in Hnew. unfold shrinkAxisOf in Hshrink.
  apply arity_inputs_test in Hins. rewrite Hins.
  apply Nat.eqb_eq in Houts. rewrite Houts.
  cbn. rewrite Hnew. cbn. rewrite Hshrink. cbn.
  apply Z.eqb_neq in Hn. rewrite Hn. reflexivity.
Qed.

Lemma parseStridedSlice_ellipsis_nonzero ft model layer ins outs n :
  arityOk ins outs -> newAxisOf layer = Ok 0 -> shrinkAxisOf layer = Ok 0 ->
  ellipsisOf layer = Ok n -> n <> 0 ->
  parseStridedSlice ft model layer ins outs =
    Throw (MaskNotSupported (layerName layer) (layerType layer) "ellipsis_mask").
Proof.
  intros [Hins Houts] Hnew Hshrink Hell Hn. unfold parseStridedSlice.
  unfold newAxisOf in Hnew. unfold shrinkAxisOf in Hshrink. unfold ellipsisOf in Hell.
  apply arity_inputs_test in Hins. rewrite Hins.
  apply Nat.eqb_eq in Houts. rewrite Houts.
  cbn. rewrite Hnew. cbn. rewrite Hshrink. cbn. rewrite Hell. cbn.
  apply Z.eqb_neq in Hn. rewrite Hn. reflexivity.
Qed.

(** C3 (amended). Given 3 or 4 inputs and 1 output, [parseStridedSlice] throws
    the unsupported-feature error of the first of [new_axis_mask],
    [shrink_axis_mask], [ellipsis_mask] (in this order) that encodes to a
    nonzero value, provided the attributes before it encode to 0; so it does
    whenever all three encode and one is nonzero. In every case a translation
    that succeeds has all three encoding to 0. *)
Theorem parseStridedSlice_unsupported_masks ft model layer ins outs :
  (forall model',
     parseStridedSlice ft model layer ins outs = Ok model' ->
     newAxisOf layer = Ok 0 /\ shrinkAxisOf layer = Ok 0 /\ ellipsisOf layer = Ok 0) /\
  (arityOk ins outs ->
     (forall n, newAxisOf layer = Ok n -> n <> 0 ->
        parseStridedSlice ft model layer ins outs =
          Throw (MaskNotSupported (layerName layer) (layerType layer) "new_axis_mask")) /\
     (forall n, newAxisOf layer = Ok 0 -> shrinkAxisOf layer = Ok n -> n <> 0 ->
        parseStridedSlice ft model layer ins outs =
          Throw (MaskNotSupported (layerName layer) (layerType layer) "shrink_axis_mask")) /\
     (forall n, newAxisOf layer = Ok 0 -> shrinkAxisOf layer = Ok 0 ->
        ellipsisOf layer = Ok n -> n <> 0 ->
        parseStridedSlice ft model layer ins outs =
          Throw (MaskNotSupported (layerName layer) (layerType layer) "ellipsis_mask")) /\
     (forall n s e,
        newAxisOf layer = Ok n -> shrinkAxisOf layer = Ok s -> ellipsisOf layer = Ok e ->
        n <> 0 \/ s <> 0 \/ e <> 0 ->
        throwsKind (parseStridedSlice ft model layer ins outs) UnsupportedFeature)).
Proof.
  split.
  - intros model' H. apply parseStridedSlice_inv in H. tauto.
  - intros Harity. repeat split.
    + intros n. apply parseStridedSlice_new_axis_nonzero; assumption.
    + intros n. apply parseStridedSlice_shrink_axis_nonzero; assumption.
    + intros n. apply parseStridedSlice_ellipsis_nonzero; assumption.
    + intros n s e Hn Hs He Hnz.
      destruct (Z.eq_dec n 0) as [-> | Hn0].
      * destruct (Z.eq_dec s 0) as [-> | Hs0].
        -- destruct (Z.eq_dec e 0) as [-> | He0]; [lia|].
           eexists. split;
             [eapply parseStridedSlice_ellipsis_nonzero; eassumption|reflexivity].
        -- eexists. split;
             [eapply parseStridedSlice_shrink_axis_nonzero; eassumption|reflexivity].
      * eexists. split;
          [eapply parseStridedSlice_new_axis_nonzero; eassumption|reflexivity].
Qed.

(** A layer whose [shrink_axis_mask] encodes to 2. *)
Lemma parseStridedSlice_unsupported_masks_witness :
  throwsKind
    (parseStridedSlice FP16 emptyModel (sliceLayer [("shrink_axis_mask", "0,1")])
       [dataT; beginT; endT] [outT])
    UnsupportedFeature.
Proof.
  refine (proj2 (proj2 (proj2 (proj2
            (parseStridedSlice_unsupported_masks FP16 emptyModel
               (sliceLayer [("shrink_axis_mask", "0,1")]) [dataT; beginT; endT] [outT])
            _))) 0 2 0 _ _ _ _).
  - unfold arityOk. cbn. lia.
  - reflexivity.
  - reflexivity.
  - reflexivity.
  - lia.
Defined.

(** C3 as stated fails where an earlier check stops the translation: with two
    inputs the arity error comes first, and a malformed [new_axis_mask] gives
    the format error, although [shrink_axis_mask] encodes to 1 in both. *)
Lemma parseStridedSlice_nonzero_mask_other_error :
  shrinkAxisOf (sliceLayer [("shrink_axis_mask", "1")]) = Ok 1 /\
  parseStridedSlice FP16 emptyModel (sliceLayer [("shrink_axis_mask", "1")])
    [dataT; beginT] [outT] = Throw (ParseNumInputs "slice" "StridedSlice" 2) /\
  ~ throwsKind
      (parseStridedSlice FP16 emptyModel (sliceLayer [("shrink_axis_mask", "1")])
         [dataT; beginT] [outT]) UnsupportedFeature /\
  shrinkAxisOf (sliceLayer [("new_axis_mask", "x"); ("shrink_axis_mask", "1")]) = Ok 1 /\
  parseStridedSlice FP16 emptyModel
    (sliceLayer [("new_axis_mask", "x"); ("shrink_axis_mask", "1")])
    [dataT; beginT; endT] [outT] = Throw (UnsupportedMaskValue "x") /\
  ~ throwsKind
      (parseStridedSlice FP16 emptyModel
         (sliceLayer [("new_axis_mask", "x"); ("shrink_axis_mask", "1")])
         [dataT; beginT; endT] [outT]) UnsupportedFeature.
Proof.
  repeat split; try reflexivity.
  - intros (e & He & Hk). vm_compute in He. inversion He; subst. discriminate.
  - intros (e & He & Hk). vm_compute in He. inversion He; subst. discriminate.
Qed.

(** The strides loop either passes or throws its one error. *)
Lemma stridesLoop_cases layer ptr : forall n i,
  stridesLoop layer ptr i n = Ok tt \/
  stridesLoop layer ptr i n =
    Throw (NegativeStride (layerName layer) (layerType layer)).
Proof.
  intros n i. destruct (first_nonpositive ptr n i) as [Hall | (k & Hk & Hbad & Hbefore)].
  - left. apply stridesLoop_ok. assumption.
  - right. apply (stridesLoop_fail layer ptr n i k); assumption.
Qed.

(** With four inputs, the translation past the mask checks is the strides
    check followed by the registration of the stage over the same inputs. *)
Lemma parseStridedSlice_four ft model layer d b e strides outs :
  length outs = 1%nat ->
  newAxisOf layer = Ok 0 -> shrinkAxisOf layer = Ok 0 -> ellipsisOf layer = Ok 0 ->
  parseStridedSlice ft model layer [d; b; e; strides] outs =
    match content strides with
    | None => Undefined
    | Some stridesContent =>
        match getS32 stridesContent with
        | None => Throw (StridesPointerNull (layerName layer) (layerType layer))
        | Some stridesPtr =>
            stridesLoop layer stridesPtr 0 (Z.to_nat (totalDimSize (desc strides)));;
            Ok (mkModel (datas model)
                  (stages model ++ [stageOf layer [d; b; e; strides] outs])%list)
        end
    end.
Proof.
  intros Houts Hnew Hshrink Hell.
  rewrite parseStridedSlice_checked; try assumption.
  - reflexivity.
  - split; [right; reflexivity|assumption].
Qed.

(** C4 (amended). Given exactly 4 inputs, exactly 1 output, the three refused
    masks encoding to 0 and a strides tensor that has content:
    [parseStridedSlice] fails if the content gives no [int32_t] pointer, fails
    if some element of the content is not strictly positive, an outcome
    settled by the elements up to the first such one, and otherwise succeeds,
    registering a stage whose input #3 is the given strides tensor. Without
    these conditions a translation given 4 inputs still never succeeds unless
    the pointer is there and every element is strictly positive. *)
Theorem parseStridedSlice_strides ft model layer d b e strides outs :
  (forall model',
     parseStridedSlice ft model layer [d; b; e; strides] outs = Ok model' ->
     exists stridesContent ptr,
       content strides = Some stridesContent /\ getS32 stridesContent = Some ptr /\
       forall j, (j < Z.to_nat (totalDimSize (desc strides)))%nat -> 0 < ptr j) /\
  (length outs = 1%nat ->
   newAxisOf layer = Ok 0 -> shrinkAxisOf layer = Ok 0 -> ellipsisOf layer = Ok 0 ->
   forall stridesContent,
     content strides = Some stridesContent ->
     (getS32 stridesContent = None ->
        parseStridedSlice ft model layer [d; b; e; strides] outs =
          Throw (StridesPointerNull (layerName layer) (layerType layer))) /\
     (forall ptr k,
        getS32 stridesContent = Some ptr ->
        (k < Z.to_nat (totalDimSize (desc strides)))%nat -> ptr k <= 0 ->
        parseStridedSlice ft model layer [d; b; e; strides] outs =
          Throw (NegativeStride (layerName layer) (layerType layer))) /\
     (forall ptr k ptr',
        getS32 stridesContent = Some ptr ->
        (k < Z.to_nat (totalDimSize (desc strides)))%nat -> ptr k <= 0 ->
        (forall j, (j < k)%nat -> 0 < ptr j) ->
        (forall j, (j <= k)%nat -> ptr' j = ptr j) ->
        parseStridedSlice ft model layer
          [d; b; e; mkData (usage strides) (desc strides) (int32Content ptr')] outs =
          Throw (NegativeStride (layerName layer) (layerType layer))) /\
     (forall ptr,
        getS32 stridesContent = Some ptr ->
        (forall j, (j < Z.to_nat (totalDimSize (desc strides)))%nat -> 0 < ptr j) ->
        exists model',
          parseStridedSlice ft model layer [d; b; e; strides] outs = Ok model' /\
          model' = mkModel (datas model)
                     (stages model ++ [stageOf layer [d; b; e; strides] outs])%list /\
          constructedStage model' = Some (stageOf layer [d; b; e; strides] outs) /\
          inputs (stageOf layer [d; b; e; strides] outs) !! 3%nat = Some strides)).
Proof.
  split.
  - intros model' H.
    destruct (parseStridedSlice_inv _ _ _ _ _ _ H) as ([_ Houts] & Hn & Hs & He).
    rewrite parseStridedSlice_four in H by assumption.
    destruct (content strides) as [stridesContent|]; [|discriminate].
    destruct (getS32 stridesContent) as [ptr|] eqn:Hget; [|discriminate].
    exists stridesContent, ptr. split; [reflexivity|]. split; [assumption|].
    intros j Hj.
    destruct (stridesLoop layer ptr 0 _) as [[]| |] eqn:Hloop; [|discriminate..].
    apply (stridesLoop_inv _ _ _ _ _ Hloop). lia.
  - intros Houts Hn Hs He stridesContent Hcontent. repeat split.
    + intros Hnull. rewrite parseStridedSlice_four by assumption.
      rewrite Hcontent, Hnull. reflexivity.
    + intros ptr k Hptr Hk Hbad. rewrite parseStridedSlice_four by assumption.
      rewrite Hcontent, Hptr.
      destruct (stridesLoop_cases layer ptr (Z.to_nat (totalDimSize (desc strides))) 0)
        as [Hloop | Hloop]; rewrite Hloop; [exfalso|reflexivity].
      pose proof (stridesLoop_inv _ _ _ _ _ Hloop k). lia.
    + intros ptr k ptr' Hptr Hk Hbad Hbefore Hagree.
      rewrite parseStridedSlice_four by assumption. cbn.
      rewrite (stridesLoop_fail layer ptr' _ 0 k); [reflexivity|lia| |].
      * intros j Hj. rewrite Hagree by lia. apply Hbefore. lia.
      * rewrite Hagree by lia. assumption.
    + intros ptr Hptr Hpos. eexists. split; [|split; [reflexivity|split]].
      * rewrite parseStridedSlice_four by assumption. rewrite Hcontent, Hptr.
        rewrite stridesLoop_ok; [reflexivity|].
        intros j Hj. apply Hpos. lia.
      * apply last_snoc.
      * reflexivity.
Qed.

(** Content with no [int32_t] pointer, strides with a zero, and all positive. *)
Lemma parseStridedSlice_strides_witness :
  parseStridedSlice FP16 emptyModel (sliceLayer [("begin_mask", "1,0,0,0")])
    [dataT; beginT; endT; untypedStridesT] [outT] =
    Throw (StridesPointerNull "slice" "StridedSlice") /\
  parseStridedSlice FP16 emptyModel (sliceLayer [("begin_mask", "1,0,0,0")])
    [dataT; beginT; endT; zeroStrideT] [outT] =
    Throw (NegativeStride "slice" "StridedSlice") /\
  exists model',
    parseStridedSlice FP16 emptyModel (sliceLayer [("begin_mask", "1,0,0,0")])
      [dataT; beginT; endT; stridesT] [outT] = Ok model' /\
    model' = mkModel []
               [stageOf (sliceLayer [("begin_mask", "1,0,0,0")])
                  [dataT; beginT; endT; stridesT] [outT]] /\
    constructedStage model' =
      Some (stageOf (sliceLayer [("begin_mask", "1,0,0,0")])
              [dataT; beginT; endT; stridesT] [outT]) /\
    inputs (stageOf (sliceLayer [("begin_mask", "1,0,0,0")])
              [dataT; beginT; endT; stridesT] [outT]) !! 3%nat = Some stridesT.
Proof.
  split; [|split].
  - exact (proj1 (proj2
             (parseStridedSlice_strides FP16 emptyModel
                (sliceLayer [("begin_mask", "1,0,0,0")])
                dataT beginT endT untypedStridesT [outT])
             eq_refl eq_refl eq_refl eq_refl (mkDataContent None) eq_refl) eq_refl).
  - refine (proj1 (proj2 (proj2
              (parseStridedSlice_strides FP16 emptyModel
                 (sliceLayer [("begin_mask", "1,0,0,0")])
                 dataT beginT endT zeroStrideT [outT])
              eq_refl eq_refl eq_refl eq_refl
              (mkDataContent (Some (arrayOf [1; 0; 2; -1]))) eq_refl))
              (arrayOf [1; 0; 2; -1]) 1%nat eq_refl _ _).
    + cbn. lia.
    + cbn. lia.
  - refine (proj2 (proj2 (proj2 (proj2
              (parseStridedSlice_strides FP16 emptyModel
                 (sliceLayer [("begin_mask", "1,0,0,0")])
                 dataT beginT endT stridesT [outT])
              eq_refl eq_refl eq_refl eq_refl
              (mkDataContent (Some (arrayOf [1; 1; 2; 2]))) eq_refl)))
              (arrayOf [1; 1; 2; 2]) eq_refl _).
    intros j Hj. cbn in Hj.
    do 4 (destruct j as [|j]; [cbn; lia|]). lia.
Defined.

(** C4 as stated fails for 4 inputs with all-positive constant strides when
    an earlier check stops the translation: no output, or a refused mask. And
    a strides tensor with no content at all does not reach the null test of
    the typed pointer: the null pointer to its content is dereferenced. *)
Lemma parseStridedSlice_positive_strides_rejected :
  content stridesT = int32Content (arrayOf [1; 1; 2; 2]) /\
  Forall (fun x => 0 < x) [1; 1; 2; 2] /\
  parseStridedSlice FP16 emptyModel (sliceLayer [])
    [dataT; beginT; endT; stridesT] [] =
    Throw (ParseNumOutputs "slice" "StridedSlice" 0) /\
  parseStridedSlice FP16 emptyModel (sliceLayer [("shrink_axis_mask", "1")])
    [dataT; beginT; endT; stridesT] [outT] =
    Throw (MaskNotSupported "slice" "StridedSlice" "shrink_axis_mask") /\
  content runtimeStridesT = None /\
  parseStridedSlice FP16 emptyModel (sliceLayer [])
    [dataT; beginT; endT; runtimeStridesT] [outT] = Undefined.
Proof.
  split; [reflexivity|]. split; [|repeat split].
  repeat constructor.
Qed.

(** The stage a successful translation registers. *)
Lemma parseStridedSlice_constructed ft model layer ins outs model' :
  parseStridedSlice ft model layer ins outs = Ok model' ->
  exists ext,
    constructedStage model' = Some (stageOf layer ext outs) /\
    length ext = 4%nat /\ take (length ins) ext = ins /\ length outs = 1%nat.
Proof.
  intros H.
  destruct (parseStridedSlice_inv _ _ _ _ _ _ H) as ([Hins Houts] & Hn & Hs & He).
  rewrite parseStridedSlice_checked in H by (try split; assumption).
  destruct Hins as [Hins | Hins]; rewrite Hins in H; cbn in H.
  - inversion H; subst model'; clear H.
    eexists. split; [apply last_snoc|].
    rewrite length_app, Hins. repeat split; [|assumption].
    rewrite <- Hins. apply take_app_length.
  - destruct ins as [|d [|b [|e [|strides [|extra rest]]]]]; try discriminate.
    cbn in H. destruct (content strides) as [stridesContent|]; [|discriminate].
    destruct (getS32 stridesContent) as [ptr|]; [|discriminate].
    destruct (stridesLoop layer ptr 0 _) as [[]| |]; [|discriminate..].
    cbn in H. inversion H; subst model'; clear H.
    eexists. split; [apply last_snoc|]. repeat split. assumption.
Qed.

(** C5 (amended). Given exactly 3 inputs, exactly 1 output and the three
    refused masks encoding to 0, [parseStridedSlice] succeeds: it takes a
    placeholder from the container, which has no dimensions and no content,
    and registers a stage with exactly 4 inputs, the three given ones and the
    placeholder as input #3. Every stage the frontend registers, for 3 or 4
    inputs, has exactly 4 inputs, beginning with the given ones. *)
Theorem parseStridedSlice_three_inputs ft model layer ins outs :
  (length ins = 3%nat -> length outs = 1%nat ->
   newAxisOf layer = Ok 0 -> shrinkAxisOf layer = Ok 0 -> ellipsisOf layer = Ok 0 ->
   exists fake,
     fake = fst (addFakeData ft model) /\
     usage fake = Fake /\ dims (desc fake) = [] /\ content fake = None /\
     parseStridedSlice ft model layer ins outs =
       Ok (mkModel (datas model ++ [fake])
             (stages model ++ [stageOf layer (ins ++ [fake]) outs]))%list /\
     numInputs (stageOf layer (ins ++ [fake]) outs) = 4%nat /\
     inputs (stageOf layer (ins ++ [fake]) outs) !! 3%nat = Some fake) /\
  (forall model',
     parseStridedSlice ft model layer ins outs = Ok model' ->
     exists st,
       constructedStage model' = Some st /\
       numInputs st = 4%nat /\ is_Some (inputs st !! 3%nat) /\
       take (length ins) (inputs st) = ins /\ outputs st = outs).
Proof.
  split.
  - intros Hins Houts Hn Hs He.
    exists (fst (addFakeData ft model)). split; [reflexivity|].
    repeat split.
    + rewrite parseStridedSlice_checked; try assumption.
      * rewrite Hins. reflexivity.
      * split; [left|]; assumption.
    + unfold numInputs. cbn. rewrite length_app, Hins. reflexivity.
    + cbn. rewrite lookup_app_r by lia. rewrite Hins. reflexivity.
  - intros model' H.
    destruct (parseStridedSlice_constructed _ _ _ _ _ _ H)
      as (ext & Hst & Hlen & Htake & _).
    exists (stageOf layer ext outs). split; [assumption|].
    unfold numInputs. cbn. repeat split; try assumption.
    apply lookup_lt_is_Some. lia.
Qed.

(** Three inputs and one output, no refused mask. *)
Lemma parseStridedSlice_three_inputs_witness :
  exists fake,
    fake = fst (addFakeData FP16 emptyModel) /\
    usage fake = Fake /\ dims (desc fake) = [] /\ content fake = None /\
    parseStridedSlice FP16 emptyModel (sliceLayer [("end_mask", "0,1")])
      [dataT; beginT; endT] [outT] =
      Ok (mkModel (datas emptyModel ++ [fake])
            (stages emptyModel ++
               [stageOf (sliceLayer [("end_mask", "0,1")])
                  ([dataT; beginT; endT] ++ [fake]) [outT]]))%list /\
    numInputs (stageOf (sliceLayer [("end_mask", "0,1")])
                 ([dataT; beginT; endT] ++ [fake]) [outT]) = 4%nat /\
    inputs (stageOf (sliceLayer [("end_mask", "0,1")])
              ([dataT; beginT; endT] ++ [fake]) [outT]) !! 3%nat = Some fake.
Proof.
  exact (proj1 (parseStridedSlice_three_inputs FP16 emptyModel
                  (sliceLayer [("end_mask", "0,1")]) [dataT; beginT; endT] [outT])
           eq_refl eq_refl eq_refl eq_refl eq_refl).
Defined.

(** C5 as stated fails when the output list is not of length 1: three inputs,
    no refused mask, and the translation throws the arity error. *)
Lemma parseStridedSlice_three_inputs_no_output :
  newAxisOf (sliceLayer []) = Ok 0 /\
  shrinkAxisOf (sliceLayer []) = Ok 0 /\
  ellipsisOf (sliceLayer []) = Ok 0 /\
  parseStridedSlice FP16 emptyModel (sliceLayer []) [dataT; beginT; endT] [] =
    Throw (ParseNumOutputs "slice" "StridedSlice" 0) /\
  ~ succeeds (parseStridedSlice FP16 emptyModel (sliceLayer [])
                [dataT; beginT; endT] []).
Proof.
  repeat split. intros [m Hm]. discriminate.
Qed.

(** ** Structural validator *)

Lemma enumSet_singleton (t t' : DataType) :
  bool_decide (t ∈ [t']) = bool_decide (t = t').
Proof. apply bool_decide_ext, list_elem_of_singleton. Qed.

(** Case analysis on the numbers of inputs and outputs of a stage, up to one
    more than the validator accepts. *)
Ltac stage_shapes st :=
  destruct st as [stName stType layer ins outs];
  unfold initialCheckImpl, wellFormedStage, assertInputsOutputsTypes,
    numInputs, numOutputs, input;
  destruct ins as [|d [|b [|e [|s [|x rest]]]]];
  destruct outs as [|o [|o' rest']]; cbn;
  rewrite ?enumSet_singleton;
  repeat case_bool_decide; cbn.

Lemma initialCheckImpl_wellFormed st :
  initialCheckImpl st = Ok tt <-> wellFormedStage st = true.
Proof. stage_shapes st; split; congruence. Qed.

Lemma initialCheckImpl_outcomes st :
  initialCheckImpl st = Ok tt \/
  exists e, initialCheckImpl st = Throw e /\
            (errorKind e = ArityError \/ errorKind e = TypeMismatch).
Proof.
  stage_shapes st; try (left; reflexivity);
    right; eexists; (split; [reflexivity|]); cbn; auto.
Qed.

(** C7. [initialCheckImpl] succeeds exactly on the stages with 3 or 4 inputs,
    1 output, input #0 of the element type of output #0, and inputs #1, #2 and
    (when present) #3 of type [S32]; on every other stage it throws, an arity
    or a type error. It has no state to change: it returns nothing but its
    verdict, and running it twice gives the verdict of running it once. *)
Theorem initialCheckImpl_characterization st :
  (initialCheckImpl st = Ok tt <-> wellFormedStage st = true) /\
  ((exists e, initialCheckImpl st = Throw e) <-> wellFormedStage st = false) /\
  (forall e, initialCheckImpl st = Throw e ->
     errorKind e = ArityError \/ errorKind e = TypeMismatch) /\
  (forall in0 out0,
     inputs st !! 0%nat = Some in0 -> outputs st !! 0%nat = Some out0 ->
     dataType (desc in0) <> dataType (desc out0) ->
     exists e, initialCheckImpl st = Throw e) /\
  (initialCheckImpl st;; initialCheckImpl st) = initialCheckImpl st.
Proof.
  pose proof (initialCheckImpl_wellFormed st) as Hwf.
  pose proof (initialCheckImpl_outcomes st) as Hout.
  assert (Hthrow : (exists e, initialCheckImpl st = Throw e) <->
                   wellFormedStage st = false).
  { split.
    - intros [e He]. apply not_true_is_false. intros Hw.
      apply Hwf in Hw. congruence.
    - intros Hw. destruct Hout as [Hok | (e & He & _)]; [|eauto].
      apply Hwf in Hok. congruence. }
  repeat split; try apply Hwf; try apply Hthrow.
  - intros e He. destruct Hout as [Hok | (e' & He' & Hk)]; congruence.
  - intros in0 out0 Hin Hout0 Hne. apply Hthrow.
    unfold wellFormedStage. rewrite Hin, Hout0.
    rewrite (bool_decide_eq_false_2 _ Hne).
    rewrite andb_false_r. reflexivity.
  - destruct (initialCheckImpl st) as [[]| |]; reflexivity.
Qed.

(** A stage that passes, and one whose output is not of the type of input #0. *)
Lemma initialCheckImpl_characterization_witness :
  initialCheckImpl fourInputStage = Ok tt /\
  exists e, initialCheckImpl
              (stageOf (sliceLayer []) [dataT; beginT; endT] [beginT]) = Throw e.
Proof.
  split.
  - apply (proj1 (initialCheckImpl_characterization fourInputStage)). reflexivity.
  - apply (proj1 (proj2 (proj2 (proj2
             (initialCheckImpl_characterization
                (stageOf (sliceLayer []) [dataT; beginT; endT] [beginT])))))
             dataT beginT); [reflexivity|reflexivity|discriminate].
Defined.

(** ** Clone *)

(** C9. [cloneImpl], called on a live stage, returns a pointer to a new
    object: the address held no stage before and is not that of the original,
    the original and every other live stage are as they were, and a later
    write to either of the two objects leaves the other one alone. The new
    stage has the name, type and layer of the original and the same tensors.
    Nothing is checked on the way: any live stage is cloned, the validator
    gives the clone the verdict it gives the original, and the parameter block
    and the data block of the clone are those of the original, on every
    serializer. *)
Theorem cloneImpl_new_shared_copy (heap : gmap nat Stage) (this : nat) (st : Stage) :
  heap !! this = Some st ->
  exists p st',
    cloneImpl heap this = Some (p, <[p := st']> heap) /\
    heap !! p = None /\ p <> this /\
    <[p := st']> heap !! this = Some st /\
    <[p := st']> heap !! p = Some st' /\
    (forall q, q <> p -> <[p := st']> heap !! q = heap !! q) /\
    (forall changed, <[this := changed]> (<[p := st']> heap) !! p = Some st') /\
    (forall changed, <[p := changed]> (<[p := st']> heap) !! this = Some st) /\
    name st' = name st /\ type st' = type st /\ origLayer st' = origLayer st /\
    inputs st' = inputs st /\ outputs st' = outputs st /\
    initialCheckImpl st' = initialCheckImpl st /\
    (forall serializer,
       serializeParamsImpl st' serializer = serializeParamsImpl st serializer) /\
    (forall serializer,
       serializeDataImpl st' serializer = serializeDataImpl st serializer).
Proof.
  intros Hlive.
  set (p := fresh (dom heap)).
  assert (Hfresh : heap !! p = None)
    by (apply not_elem_of_dom, is_fresh).
  assert (Hne : p <> this) by congruence.
  exists p, (copyStage st).
  split; [unfold cloneImpl, make_shared; rewrite Hlive; reflexivity|].
  split; [assumption|]. split; [assumption|].
  split; [rewrite lookup_insert_ne by assumption; assumption|].
  split; [apply lookup_insert_eq|].
  split; [intros q Hq; apply lookup_insert_ne; congruence|].
  split; [intros changed; rewrite lookup_insert_ne by congruence;
          apply lookup_insert_eq|].
  split; [intros changed; rewrite lookup_insert_ne by assumption;
          rewrite lookup_insert_ne by assumption; assumption|].
  destruct st as [stName stType layer ins outs]. repeat split.
Qed.

(** The clone of a stage the validator refuses, in a heap of two stages. *)
Lemma cloneImpl_new_shared_copy_witness :
  initialCheckImpl wideStage = Throw (CheckNumInputs "slice" StridedSlice 5) /\
  exists p st',
    cloneImpl twoStages 3%nat = Some (p, <[p := st']> twoStages) /\
    twoStages !! p = None /\ p <> 3%nat /\
    <[p := st']> twoStages !! 3%nat = Some wideStage /\
    <[p := st']> twoStages !! p = Some st' /\
    (forall q, q <> p -> <[p := st']> twoStages !! q = twoStages !! q) /\
    (forall changed, <[3%nat := changed]> (<[p := st']> twoStages) !! p = Some st') /\
    (forall changed, <[p := changed]> (<[p := st']> twoStages) !! 3%nat = Some wideStage) /\
    name st' = name wideStage /\ type st' = type wideStage /\
    origLayer st' = origLayer wideStage /\
    inputs st' = inputs wideStage /\ outputs st' = outputs wideStage /\
    initialCheckImpl st' = initialCheckImpl wideStage /\
    (forall serializer,
       serializeParamsImpl st' serializer = serializeParamsImpl wideStage serializer) /\
    (forall serializer,
       serializeDataImpl st' serializer = serializeDataImpl wideStage serializer).
Proof.
  split; [reflexivity|].
  apply (cloneImpl_new_shared_copy twoStages 3%nat wideStage). reflexivity.
Defined.

(** ** Absent attributes *)

Lemma maskLoop_throws_format mask : forall result idx e,
  maskLoop mask result idx = Throw e -> errorKind e = FormatError.
Proof.
  induction mask as [|c rest IH]; intros result idx e H; [discriminate|].
  cbn in H.
  destruct (Ascii.eqb c ","); [eauto|].
  destruct (Ascii.eqb c "1").
  { destruct (shlInt 1 idx); [eauto|discriminate]. }
  destruct (Ascii.eqb c "0").
  { destruct (idx <? INT_MAX); [eauto|discriminate]. }
  inversion H. reflexivity.
Qed.

(** Which check an exception of [parseStridedSlice] comes from. *)
Lemma parseStridedSlice_throw_inv ft model layer ins outs e :
  parseStridedSlice ft model layer ins outs = Throw e ->
  (~ arityOk ins outs /\ errorKind e = ArityError) \/
  (arityOk ins outs /\
   ((errorKind e = FormatError /\
       (newAxisOf layer = Throw e \/ shrinkAxisOf layer = Throw e \/
        ellipsisOf layer = Throw e)) \/
    (e = MaskNotSupported (layerName layer) (layerType layer) "new_axis_mask" /\
       exists n, newAxisOf layer = Ok n /\ n <> 0) \/
    (e = MaskNotSupported (layerName layer) (layerType layer) "shrink_axis_mask" /\
       exists n, shrinkAxisOf layer = Ok n /\ n <> 0) \/
    (e = MaskNotSupported (layerName layer) (layerType layer) "ellipsis_mask" /\
       exists n, ellipsisOf layer = Ok n /\ n <> 0) \/
    (newAxisOf layer = Ok 0 /\ shrinkAxisOf layer = Ok 0 /\ ellipsisOf layer = Ok 0 /\
       errorKind e = MissingCompileTimeData))).
Proof.
  intros H.
  destruct ((length ins =? 3)%nat || (length ins =? 4)%nat) eqn:Hins.
  2:{ left. unfold parseStridedSlice in H. rewrite Hins in H.
      inversion H. split; [|reflexivity].
      intros [Hi _]. apply arity_inputs_test in Hi. congruence. }
  destruct (length outs =? 1)%nat eqn:Houts.
  2:{ left. unfold parseStridedSlice in H. rewrite Hins, Houts in H.
      inversion H. split; [|reflexivity].
      intros [_ Ho]. apply Nat.eqb_eq in Ho. congruence. }
  assert (Harity : arityOk ins outs)
    by (split; [apply arity_inputs_test, Hins|apply Nat.eqb_eq, Houts]).
  right. split; [assumption|].
  destruct (newAxisOf layer) as [n| e1|] eqn:Hn.
  - destruct (Z.eq_dec n 0) as [-> | Hn0].
    2:{ rewrite (parseStridedSlice_new_axis_nonzero _ _ _ _ _ n) in H by assumption.
        inversion H. right. left. eauto. }
    destruct (shrinkAxisOf layer) as [s| e2|] eqn:Hs.
    + destruct (Z.eq_dec s 0) as [-> | Hs0].
      2:{ rewrite (parseStridedSlice_shrink_axis_nonzero _ _ _ _ _ s) in H by assumption.
          inversion H. right. right. left. eauto. }
      destruct (ellipsisOf layer) as [l| e3|] eqn:Hl.
      * destruct (Z.eq_dec l 0) as [-> | Hl0].
        2:{ rewrite (parseStridedSlice_ellipsis_nonzero _ _ _ _ _ l) in H by assumption.
            inversion H. right. right. right. left. eauto. }
        do 4 right. repeat split.
        rewrite parseStridedSlice_checked in H by assumption.
        destruct (length ins =? 3)%nat; [discriminate|].
        destruct (ins !! 3%nat) as [strides|]; [|discriminate].
        destruct (content strides) as [stridesContent|]; [|discriminate].
        destruct (getS32 stridesContent) as [ptr|]; [|inversion H; reflexivity].
        destruct (stridesLoop_cases layer ptr (Z.to_nat (totalDimSize (desc strides))) 0)
          as [Hloop | Hloop]; rewrite Hloop in H; [discriminate|].
        inversion H. reflexivity.
      * unfold parseStridedSlice in H. rewrite Hins, Houts in H.
        unfold newAxisOf in Hn. unfold shrinkAxisOf in Hs. unfold ellipsisOf in Hl.
        cbn in H. rewrite Hn in H. cbn in H. rewrite Hs in H. cbn in H.
        rewrite Hl in H. cbn in H. inversion H; subst e3.
        left. split; [|auto]. eapply maskLoop_throws_format, Hl.
      * unfold parseStridedSlice in H. rewrite Hins, Houts in H.
        unfold newAxisOf in Hn. unfold shrinkAxisOf in Hs. unfold ellipsisOf in Hl.
        cbn in H. rewrite Hn in H. cbn in H. rewrite Hs in H. cbn in H.
        rewrite Hl in H. discriminate.
    + unfold parseStridedSlice in H. rewrite Hins, Houts in H.
      unfold newAxisOf in Hn. unfold shrinkAxisOf in Hs.
      cbn in H. rewrite Hn in H. cbn in H. rewrite Hs in H. cbn in H.
      inversion H; subst e2.
      left. split; [|auto]. eapply maskLoop_throws_format, Hs.
    + unfold parseStridedSlice in H. rewrite Hins, Houts in H.
      unfold newAxisOf in Hn. unfold shrinkAxisOf in Hs.
      cbn in H. rewrite Hn in H. cbn in H. rewrite Hs in H. discriminate.
  - unfold parseStridedSlice in H. rewrite Hins, Houts in H.
    unfold newAxisOf in Hn. cbn in H. rewrite Hn in H. cbn in H.
    inversion H; subst e1.
    left. split; [|auto]. eapply maskLoop_throws_format, Hn.
  - unfold parseStridedSlice in H. rewrite Hins, Houts in H.
    unfold newAxisOf in Hn. cbn in H. rewrite Hn in H. discriminate.
Qed.

Lemma absent_param_encodes_zero layer param :
  params layer !! param = None ->
  GetParamAsString layer param "" = "" /\
  maskStrToInt (GetParamAsString layer param "") = Ok 0.
Proof.
  intros Habs. unfold GetParamAsString. rewrite Habs. split; reflexivity.
Qed.

Lemma serializeParamsImpl_encoded st serializer b e :
  maskStrToInt (GetParamAsString (origLayer st) "begin_mask" "") = Ok b ->
  maskStrToInt (GetParamAsString (origLayer st) "end_mask" "") = Ok e ->
  serializeParamsImpl st serializer = Ok (serializer ++ [UInt32 b; UInt32 e])%list.
Proof.
  intros Hb He. unfold serializeParamsImpl. rewrite Hb. cbn. rewrite He. cbn.
  unfold append. rewrite <- app_assoc. reflexivity.
Qed.

(** C10. Each of the five mask attributes may be absent: the text read for it
    is then empty and encodes to 0. So an absent [new_axis_mask],
    [shrink_axis_mask] or [ellipsis_mask] never raises its unsupported-feature
    error, a layer lacking all three is refused for no mask reason (with 3
    inputs and 1 output it is translated), and absent [begin_mask] and
    [end_mask] are serialized as the integer 0. *)
Theorem absent_masks_encode_zero (layer : CNNLayer) :
  (forall param,
     params layer !! param = None ->
     GetParamAsString layer param "" = "" /\
     maskStrToInt (GetParamAsString layer param "") = Ok 0) /\
  (forall param ft model ins outs,
     param ∈ ["new_axis_mask"; "shrink_axis_mask"; "ellipsis_mask"] ->
     params layer !! param = None ->
     parseStridedSlice ft model layer ins outs <>
       Throw (MaskNotSupported (layerName layer) (layerType layer) param)) /\
  (forall ft model ins outs,
     params layer !! "new_axis_mask" = None ->
     params layer !! "shrink_axis_mask" = None ->
     params layer !! "ellipsis_mask" = None ->
     (forall e, parseStridedSlice ft model layer ins outs = Throw e ->
        errorKind e = ArityError \/ errorKind e = MissingCompileTimeData) /\
     (length ins = 3%nat -> length outs = 1%nat ->
        succeeds (parseStridedSlice ft model layer ins outs))) /\
  (forall st serializer,
     origLayer st = layer ->
     (params layer !! "begin_mask" = None ->
      params layer !! "end_mask" = None ->
      serializeParamsImpl st serializer = Ok (serializer ++ [UInt32 0; UInt32 0])%list) /\
     (forall e,
        params layer !! "begin_mask" = None ->
        maskStrToInt (GetParamAsString layer "end_mask" "") = Ok e ->
        serializeParamsImpl st serializer = Ok (serializer ++ [UInt32 0; UInt32 e])%list) /\
     (forall b,
        maskStrToInt (GetParamAsString layer "begin_mask" "") = Ok b ->
        params layer !! "end_mask" = None ->
        serializeParamsImpl st serializer = Ok (serializer ++ [UInt32 b; UInt32 0])%list)).
Proof.
  split; [apply absent_param_encodes_zero|]. split; [|split].
  - intros param ft model ins outs Hparam Habs Hthrow.
    apply absent_param_encodes_zero in Habs as [_ Hzero].
    apply parseStridedSlice_throw_inv in Hthrow
      as [[_ Hk] | [_ [[Hk _] | [[He (n & Hn & Hnz)] | [[He (n & Hn & Hnz)] |
            [[He (n & Hn & Hnz)] | (_ & _ & _ & Hk)]]]]]];
      try discriminate.
    all: inversion He as [Hp]; rewrite Hp in Hzero.
    + unfold newAxisOf in Hn. congruence.
    + unfold shrinkAxisOf in Hn. congruence.
    + unfold ellipsisOf in Hn. congruence.
  - intros ft model ins outs Hnew Hshrink Hell.
    apply absent_param_encodes_zero in Hnew as [_ Hnew].
    apply absent_param_encodes_zero in Hshrink as [_ Hshrink].
    apply absent_param_encodes_zero in Hell as [_ Hell].
    split.
    + intros e Hthrow.
      apply parseStridedSlice_throw_inv in Hthrow
        as [[_ Hk] | [_ [[_ [Hf | [Hf | Hf]]] | [[_ (n & Hn & Hnz)] | [[_ (n & Hn & Hnz)] |
              [[_ (n & Hn & Hnz)] | (_ & _ & _ & Hk)]]]]]]; auto.
      all: unfold newAxisOf, shrinkAxisOf, ellipsisOf in *; congruence.
    + intros Hins Houts.
      rewrite parseStridedSlice_checked; try assumption.
      * rewrite Hins. cbn. eexists. reflexivity.
      * split; [left|]; assumption.
  - intros st serializer <-. repeat split.
    + intros Hb He.
      apply absent_param_encodes_zero in Hb as [_ Hb].
      apply absent_param_encodes_zero in He as [_ He].
      apply serializeParamsImpl_encoded; assumption.
    + intros e Hb He.
      apply absent_param_encodes_zero in Hb as [_ Hb].
      apply serializeParamsImpl_encoded; assumption.
    + intros b Hb He.
      apply absent_param_encodes_zero in He as [_ He].
      apply serializeParamsImpl_encoded; assumption.
Qed.

(** A layer with [end_mask] only, and a stage of a layer with no parameter. *)
Lemma absent_masks_encode_zero_witness :
  succeeds (parseStridedSlice FP16 emptyModel (sliceLayer [("end_mask", "0,1")])
              [dataT; beginT; endT] [outT]) /\
  serializeParamsImpl threeInputStage [] = Ok [UInt32 0; UInt32 0].
Proof.
  split.
  - apply (proj2 (proj1 (proj2 (proj2
             (absent_masks_encode_zero (sliceLayer [("end_mask", "0,1")]))))
             FP16 emptyModel [dataT; beginT; endT] [outT]
             eq_refl eq_refl eq_refl)); reflexivity.
  - apply (proj1 (proj2 (proj2 (proj2
             (absent_masks_encode_zero (sliceLayer []))))
             threeInputStage [] eq_refl)); reflexivity.
Defined.

(** ** Binary encoder *)

Lemma serializeDataImpl_five st i0 i1 i2 i3 o0 serializer :
  inputs st = [i0; i1; i2; i3] -> outputs st = [o0] ->
  serializeDataImpl st serializer =
    Ok (serializer ++ [BufferRef i0; BufferRef i1; BufferRef i2; BufferRef i3;
                       BufferRef o0])%list.
Proof.
  intros Hin Hout. unfold serializeDataImpl, input, output, serializeBuffer.
  rewrite Hin, Hout. cbn. rewrite <- !app_assoc. reflexivity.
Qed.

Lemma four_inputs_one_output st :
  numInputs st = 4%nat -> numOutputs st = 1%nat ->
  exists i0 i1 i2 i3 o0, inputs st = [i0; i1; i2; i3] /\ outputs st = [o0].
Proof.
  unfold numInputs, numOutputs. intros Hin Hout.
  destruct (inputs st) as [|i0 [|i1 [|i2 [|i3 [|extra rest]]]]]; try discriminate.
  destruct (outputs st) as [|o0 [|extra rest]]; try discriminate.
  eauto 10.
Qed.

Lemma wellFormedStage_one_output st :
  wellFormedStage st = true -> numOutputs st = 1%nat.
Proof.
  unfold wellFormedStage. intros H.
  apply andb_prop in H as [H _]. apply andb_prop in H as [H _].
  apply andb_prop in H as [_ H]. apply Nat.eqb_eq. assumption.
Qed.

(** C2 (amended). For a stage the frontend registered and the validator
    passed, [serializeDataImpl] never fails, and [serializeParamsImpl] is the
    encoding, made when the parameters are serialized, of the [begin_mask] and
    [end_mask] texts of the layer the stage refers to: the stage keeps no
    encoded mask. So the two encoders succeed when both texts are masks of at
    most 32 flags, and [serializeParamsImpl] throws what [maskStrToInt] throws
    on a text it refuses. *)
Theorem serialize_after_checks ft model layer ins outs model' st :
  parseStridedSlice ft model layer ins outs = Ok model' ->
  constructedStage model' = Some st ->
  initialCheckImpl st = Ok tt ->
  origLayer st = layer /\
  (forall serializer, succeeds (serializeDataImpl st serializer)) /\
  (forall serializer,
     serializeParamsImpl st serializer =
       (b ← maskStrToInt (GetParamAsString layer "begin_mask" "");
        e ← maskStrToInt (GetParamAsString layer "end_mask" "");
        Ok (serializer ++ [UInt32 b; UInt32 e])%list)) /\
  (wellFormedMask (GetParamAsString layer "begin_mask" "") ->
   wellFormedMask (GetParamAsString layer "end_mask" "") ->
   forall serializer,
     succeeds (serializeParamsImpl st serializer) /\
     succeeds (serialize st serializer)) /\
  (forall serializer err,
     maskStrToInt (GetParamAsString layer "begin_mask" "") = Throw err ->
     serializeParamsImpl st serializer = Throw err /\ errorKind err = FormatError) /\
  (forall serializer b err,
     maskStrToInt (GetParamAsString layer "begin_mask" "") = Ok b ->
     maskStrToInt (GetParamAsString layer "end_mask" "") = Throw err ->
     serializeParamsImpl st serializer = Throw err /\ errorKind err = FormatError).
Proof.
  intros Hparse Hst Hcheck.
  destruct (parseStridedSlice_constructed _ _ _ _ _ _ Hparse)
    as (ext & Hst' & Hlen & _ & Houts).
  rewrite Hst in Hst'. inversion Hst'; subst st; clear Hst'.
  destruct (four_inputs_one_output (stageOf layer ext outs) Hlen Houts)
    as (i0 & i1 & i2 & i3 & o0 & Hin & Hout).
  assert (Hdata : forall serializer,
             succeeds (serializeDataImpl (stageOf layer ext outs) serializer)).
  { intros serializer. eexists. apply serializeDataImpl_five; eassumption. }
  assert (Hparams : forall serializer,
     serializeParamsImpl (stageOf layer ext outs) serializer =
       (b ← maskStrToInt (GetParamAsString layer "begin_mask" "");
        e ← maskStrToInt (GetParamAsString layer "end_mask" "");
        Ok (serializer ++ [UInt32 b; UInt32 e])%list)).
  { intros serializer. unfold serializeParamsImpl. cbn.
    destruct (maskStrToInt (GetParamAsString layer "begin_mask" "")); try reflexivity.
    cbn. destruct (maskStrToInt (GetParamAsString layer "end_mask" "")); try reflexivity.
    cbn. unfold append. rewrite <- app_assoc. reflexivity. }
  split; [reflexivity|]. split; [assumption|]. split; [assumption|].
  split; [|split].
  - intros [Hbc Hbl] [Hec Hel] serializer.
    destruct (maskStrToInt_encodes _ Hbc Hbl) as (b & Hb & _).
    destruct (maskStrToInt_encodes _ Hec Hel) as (e & He & _).
    assert (Hp : serializeParamsImpl (stageOf layer ext outs) serializer =
                 Ok (serializer ++ [UInt32 b; UInt32 e])%list)
      by (apply serializeParamsImpl_encoded; assumption).
    split; [eexists; exact Hp|].
    unfold serialize. rewrite Hp. cbn. apply Hdata.
  - intros serializer err Hb. rewrite Hparams, Hb. split; [reflexivity|].
    eapply maskLoop_throws_format, Hb.
  - intros serializer b err Hb He. rewrite Hparams, Hb. cbn. rewrite He.
    split; [reflexivity|]. eapply maskLoop_throws_format, He.
Qed.

(** The stage registered for four inputs and two well-formed masks. *)
Lemma serialize_after_checks_witness :
  succeeds (serializeParamsImpl fourInputStage []) /\
  succeeds (serialize fourInputStage []).
Proof.
  refine (proj1 (proj2 (proj2 (proj2
            (serialize_after_checks FP16 emptyModel
               (sliceLayer [("begin_mask", "1,0,0,0"); ("end_mask", "0,0,1,1")])
               [dataT; beginT; endT; stridesT] [outT]
               (mkModel [] [fourInputStage]) fourInputStage
               eq_refl eq_refl eq_refl))))
            _ _ []).
  - split; [reflexivity|vm_compute; lia].
  - split; [reflexivity|vm_compute; lia].
Defined.

(** C2 as stated fails: nothing on the way to a registered and validated stage
    reads [begin_mask], and serializing its parameters throws the format error. *)
Lemma serializeParamsImpl_throws_after_checks :
  parseStridedSlice FP16 emptyModel (sliceLayer [("begin_mask", "1,x,0,0")])
    [dataT; beginT; endT; stridesT] [outT] =
    Ok (mkModel []
          [stageOf (sliceLayer [("begin_mask", "1,x,0,0")])
             [dataT; beginT; endT; stridesT] [outT]]) /\
  initialCheckImpl
    (stageOf (sliceLayer [("begin_mask", "1,x,0,0")])
       [dataT; beginT; endT; stridesT] [outT]) = Ok tt /\
  serializeParamsImpl
    (stageOf (sliceLayer [("begin_mask", "1,x,0,0")])
       [dataT; beginT; endT; stridesT] [outT]) [] =
    Throw (UnsupportedMaskValue "x") /\
  serialize
    (stageOf (sliceLayer [("begin_mask", "1,x,0,0")])
       [dataT; beginT; endT; stridesT] [outT]) [] =
    Throw (UnsupportedMaskValue "x").
Proof. repeat split. Qed.

(** C6 (amended). For a stage that passed validation, has 4 inputs (as every
    stage the frontend registers) and whose [begin_mask] and [end_mask] texts
    are masks of at most 32 flags: [serializeParamsImpl] appends exactly two
    32-bit unsigned integers, the encoding of [begin_mask] then that of
    [end_mask], 8 bytes in all, and [serializeDataImpl] appends exactly 5
    buffer references, of inputs #0, #1, #2, #3 and output #0 in this order,
    whatever input #3 is. *)
Theorem serialize_layout st :
  initialCheckImpl st = Ok tt ->
  numInputs st = 4%nat ->
  wellFormedMask (GetParamAsString (origLayer st) "begin_mask" "") ->
  wellFormedMask (GetParamAsString (origLayer st) "end_mask" "") ->
  exists b e i0 i1 i2 i3 o0,
    inputs st = [i0; i1; i2; i3] /\ outputs st = [o0] /\
    maskStrToInt (GetParamAsString (origLayer st) "begin_mask" "") = Ok b /\
    encodes (GetParamAsString (origLayer st) "begin_mask" "") b /\
    maskStrToInt (GetParamAsString (origLayer st) "end_mask" "") = Ok e /\
    encodes (GetParamAsString (origLayer st) "end_mask" "") e /\
    scalarBytes [UInt32 b; UInt32 e] = Some 8 /\
    (forall serializer,
       serializeParamsImpl st serializer =
         Ok (serializer ++ [UInt32 b; UInt32 e])%list) /\
    (forall serializer,
       serializeDataImpl st serializer =
         Ok (serializer ++ [BufferRef i0; BufferRef i1; BufferRef i2; BufferRef i3;
                            BufferRef o0])%list) /\
    (forall serializer,
       serialize st serializer =
         Ok (serializer ++ [UInt32 b; UInt32 e; BufferRef i0; BufferRef i1;
                            BufferRef i2; BufferRef i3; BufferRef o0])%list).
Proof.
  intros Hcheck Hfour [Hbc Hbl] [Hec Hel].
  apply initialCheckImpl_wellFormed, wellFormedStage_one_output in Hcheck.
  destruct (four_inputs_one_output st Hfour Hcheck)
    as (i0 & i1 & i2 & i3 & o0 & Hin & Hout).
  destruct (maskStrToInt_encodes _ Hbc Hbl) as (b & Hb & Hbenc).
  destruct (maskStrToInt_encodes _ Hec Hel) as (e & He & Heenc).
  exists b, e, i0, i1, i2, i3, o0.
  assert (Hp : forall serializer,
             serializeParamsImpl st serializer =
               Ok (serializer ++ [UInt32 b; UInt32 e])%list)
    by (intros; apply serializeParamsImpl_encoded; assumption).
  assert (Hd : forall serializer,
             serializeDataImpl st serializer =
               Ok (serializer ++ [BufferRef i0; BufferRef i1; BufferRef i2;
                                  BufferRef i3; BufferRef o0])%list)
    by (intros; apply serializeDataImpl_five; assumption).
  repeat split; try assumption; try apply Hbenc; try apply Heenc.
  intros serializer. unfold serialize. rewrite Hp. cbn. rewrite Hd.
  rewrite <- app_assoc. reflexivity.
Qed.

(** A stage whose input #3 is a placeholder. *)
Lemma serialize_layout_witness :
  exists b e i0 i1 i2 i3 o0,
    inputs placeholderStage = [i0; i1; i2; i3] /\ outputs placeholderStage = [o0] /\
    maskStrToInt (GetParamAsString (origLayer placeholderStage) "begin_mask" "") = Ok b /\
    encodes (GetParamAsString (origLayer placeholderStage) "begin_mask" "") b /\
    maskStrToInt (GetParamAsString (origLayer placeholderStage) "end_mask" "") = Ok e /\
    encodes (GetParamAsString (origLayer placeholderStage) "end_mask" "") e /\
    scalarBytes [UInt32 b; UInt32 e] = Some 8 /\
    (forall serializer,
       serializeParamsImpl placeholderStage serializer =
         Ok (serializer ++ [UInt32 b; UInt32 e])%list) /\
    (forall serializer,
       serializeDataImpl placeholderStage serializer =
         Ok (serializer ++ [BufferRef i0; BufferRef i1; BufferRef i2; BufferRef i3;
                            BufferRef o0])%list) /\
    (forall serializer,
       serialize placeholderStage serializer =
         Ok (serializer ++ [UInt32 b; UInt32 e; BufferRef i0; BufferRef i1;
                            BufferRef i2; BufferRef i3; BufferRef o0])%list).
Proof.
  apply (serialize_layout placeholderStage).
  - reflexivity.
  - reflexivity.
  - split; [reflexivity|vm_compute; lia].
  - split; [reflexivity|vm_compute; lia].
Defined.

(** C6 as stated fails on validated stages: one with three inputs has no
    input #3 to reference, and one the frontend registered with a malformed
    [end_mask] throws the format error instead of emitting its parameters. *)
Lemma serialize_validated_stage_fails :
  initialCheckImpl threeInputStage = Ok tt /\
  serializeDataImpl threeInputStage [] = Throw (EdgeIndexOutOfRange "slice" 3) /\
  parseStridedSlice FP16 emptyModel (sliceLayer [("end_mask", "0,2")])
    [dataT; beginT; endT; stridesT] [outT] =
    Ok (mkModel []
          [stageOf (sliceLayer [("end_mask", "0,2")])
             [dataT; beginT; endT; stridesT] [outT]]) /\
  initialCheckImpl
    (stageOf (sliceLayer [("end_mask", "0,2")])
       [dataT; beginT; endT; stridesT] [outT]) = Ok tt /\
  serializeParamsImpl
    (stageOf (sliceLayer [("end_mask", "0,2")])
       [dataT; beginT; endT; stridesT] [outT]) [] =
    Throw (UnsupportedMaskValue "2").
Proof. repeat split. Qed.

(** * Further properties *)

(** ** Mask codec *)

Lemma shlInt_one_inv idx bit : shlInt 1 idx = Some bit -> 0 <= idx < 32.
Proof.
  unfold shlInt. intros H.
  destruct (0 <=? idx) eqn:H0; [|discriminate].
  destruct (idx <? 32) eqn:H1; [|discriminate].
  apply Z.leb_le in H0. apply Z.ltb_lt in H1. lia.
Qed.

Lemma noneSetFrom_spec n mask :
  noneSetFrom n mask = true <->
  forall i, flagChars mask !! i = Some "1"%char -> (i < n)%nat.
Proof.
  unfold noneSetFrom. rewrite forallb_forall. split.
  - intros H i Hi. destruct (Nat.lt_ge_cases i n) as [|Hge]; [assumption|exfalso].
    assert (Hd : drop n (flagChars mask) !! (i - n)%nat = Some "1"%char).
    { rewrite lookup_drop. replace (n + (i - n))%nat with i by lia. assumption. }
    apply list_elem_of_lookup_2, list_elem_of_In, H in Hd. discriminate.
  - intros H c Hc. apply list_elem_of_In, list_elem_of_lookup_1 in Hc as [k Hk].
    rewrite lookup_drop in Hk.
    destruct (Ascii.eqb c "1") eqn:E; [exfalso|reflexivity].
    apply Ascii.eqb_eq in E as ->. apply H in Hk. lia.
Qed.

(** The loop on a text it reads to the end: the invariant of [maskLoop_bits],
    for any number of flags as long as the set ones stay below 32. *)
Lemma maskLoop_reads_all mask : forall result idx,
  onlyMaskChars mask = true ->
  0 <= idx ->
  (forall i, flagChars mask !! i = Some "1"%char -> idx + Z.of_nat i < 32) ->
  idx + Z.of_nat (length (flagChars mask)) <= INT_MAX ->
  0 <= result ->
  (forall j, idx <= j -> Z.testbit result j = false) ->
  exists r,
    maskLoop mask result idx = Ok r /\ 0 <= r /\
    forall j, 0 <= j ->
      Z.testbit r j =
        if j <? idx then Z.testbit result j
        else bool_decide (flagChars mask !! Z.to_nat (j - idx) = Some "1"%char).
Proof.
  induction mask as [|c rest IH]; intros result idx Hok Hidx Hones Hlen Hres Hhigh.
  - exists result. repeat split; [assumption|].
    intros j Hj. cbn. destruct (j <? idx) eqn:E; [reflexivity|].
    apply Z.ltb_ge in E. rewrite Hhigh by assumption.
    symmetry. apply bool_decide_eq_false. discriminate.
  - cbn in Hok. apply andb_prop in Hok as [Hc Hrest].
    assert (Hshift : forall i, flagChars rest !! i = Some "1"%char ->
                       c <> ","%char -> idx + 1 + Z.of_nat i < 32).
    { intros i Hi Hne. specialize (Hones (S i)). cbn in Hones.
      destruct (Ascii.eqb c ",") eqn:E; [apply Ascii.eqb_eq in E; contradiction|].
      cbn in Hones. specialize (Hones Hi). lia. }
    apply isMaskChar_cases in Hc as [-> | [-> | ->]]; cbn in Hlen, Hones |- *.
    + apply IH; assumption.
    + assert (Hlt : idx < 32) by (specialize (Hones 0%nat eq_refl); lia).
      rewrite shlInt_one, shlInt_one_bit by lia.
      destruct (IH (Z.lor result (2 ^ idx)) (idx + 1)) as (r & Hr & Hr0 & Hbits);
        try assumption; try lia.
      * intros i Hi. apply Hshift; [assumption|discriminate].
      * apply Z.lor_nonneg. split; [assumption|apply Z.pow_nonneg; lia].
      * intros j Hj. rewrite Z.lor_spec, Hhigh by lia.
        rewrite Z.pow2_bits_eqb by lia.
        replace (idx =? j) with false by (symmetry; apply Z.eqb_neq; lia).
        reflexivity.
      * exists r. repeat split; [assumption..|].
        intros j Hj. rewrite Hbits by assumption.
        destruct (j <? idx) eqn:E1.
        -- apply Z.ltb_lt in E1.
           replace (j <? idx + 1) with true by (symmetry; apply Z.ltb_lt; lia).
           rewrite Z.lor_spec, Z.pow2_bits_eqb by lia.
           replace (idx =? j) with false by (symmetry; apply Z.eqb_neq; lia).
           apply orb_false_r.
        -- apply Z.ltb_ge in E1.
           destruct (Z.eq_dec j idx) as [-> | Hne].
           ++ replace (idx <? idx + 1) with true by (symmetry; apply Z.ltb_lt; lia).
              rewrite Z.lor_spec, Z.pow2_bits_eqb, Z.eqb_refl, orb_true_r by lia.
              rewrite Z.sub_diag. reflexivity.
           ++ replace (j <? idx + 1) with false by (symmetry; apply Z.ltb_ge; lia).
              replace (Z.to_nat (j - idx)) with (S (Z.to_nat (j - (idx + 1)))) by lia.
              reflexivity.
    + replace (idx <? INT_MAX) with true by (symmetry; apply Z.ltb_lt; lia).
      destruct (IH result (idx + 1)) as (r & Hr & Hr0 & Hbits);
        try assumption; try lia.
      * intros i Hi. apply Hshift; [assumption|discriminate].
      * intros j Hj. apply Hhigh. lia.
      * exists r. repeat split; [assumption..|].
        intros j Hj. rewrite Hbits by assumption.
        destruct (j <? idx) eqn:E1.
        -- apply Z.ltb_lt in E1.
           replace (j <? idx + 1) with true by (symmetry; apply Z.ltb_lt; lia).
           reflexivity.
        -- apply Z.ltb_ge in E1.
           destruct (Z.eq_dec j idx) as [-> | Hne].
           ++ replace (idx <? idx + 1) with true by (symmetry; apply Z.ltb_lt; lia).
              rewrite Z.sub_diag, Hhigh by lia. reflexivity.
           ++ replace (j <? idx + 1) with false by (symmetry; apply Z.ltb_ge; lia).
              replace (Z.to_nat (j - idx)) with (S (Z.to_nat (j - (idx + 1)))) by lia.
              reflexivity.
Qed.

(** What a normal return of the loop tells about the text. *)
Lemma maskLoop_ok_inv mask : forall result idx r,
  maskLoop mask result idx = Ok r ->
  0 <= idx <= INT_MAX ->
  onlyMaskChars mask = true /\
  (forall i, flagChars mask !! i = Some "1"%char -> idx + Z.of_nat i < 32) /\
  idx + Z.of_nat (length (flagChars mask)) <= INT_MAX.
Proof.
  induction mask as [|c rest IH]; intros result idx r H Hidx.
  - cbn. repeat split; [|lia]. intros i Hi. discriminate.
  - cbn in H |- *. unfold isMaskChar.
    destruct (Ascii.eqb c ",") eqn:Hc; [apply (IH _ _ _ H Hidx)|].
    destruct (Ascii.eqb c "1") eqn:H1.
    { destruct (shlInt 1 idx) as [bit|] eqn:Hs; [|discriminate].
      apply shlInt_one_inv in Hs.
      destruct (IH _ _ _ H) as (Hok & Hones & Hlen); [unfold INT_MAX; lia|].
      cbn. repeat split; [assumption| |lia].
      intros [|i] Hi; [lia|]. cbn in Hi. specialize (Hones i Hi). lia. }
    destruct (Ascii.eqb c "0") eqn:H0; [|discriminate].
    destruct (idx <? INT_MAX) eqn:Hlt; [|discriminate].
    apply Z.ltb_lt in Hlt.
    destruct (IH _ _ _ H) as (Hok & Hones & Hlen); [lia|].
    cbn. repeat split; [assumption| |lia].
    intros [|i] Hi.
    + cbn in Hi. inversion Hi; subst c. discriminate.
    + cbn in Hi. specialize (Hones i Hi). lia.
Qed.

Lemma bits_encode mask r :
  0 <= r ->
  (forall i, flagChars mask !! i = Some "1"%char -> (i < 32)%nat) ->
  (forall j, 0 <= j ->
     Z.testbit r j = bool_decide (flagChars mask !! Z.to_nat j = Some "1"%char)) ->
  encodes mask r /\ r < 2 ^ Z.of_nat (length (flagChars mask)).
Proof.
  intros Hr Hones Hbits.
  assert (Hflag : forall i : nat,
             Z.testbit r (Z.of_nat i) = true <-> flagChars mask !! i = Some "1"%char).
  { intros i. rewrite Hbits by lia. rewrite Nat2Z.id. apply bool_decide_eq_true. }
  assert (Habove : forall n : nat,
             (forall i, flagChars mask !! i = Some "1"%char -> (i < n)%nat) ->
             r < 2 ^ Z.of_nat n).
  { intros n Hn. apply bits_above_bound; [lia|assumption|].
    intros j Hj. destruct (Z.testbit r j) eqn:E; [exfalso|reflexivity].
    rewrite <- (Z2Nat.id j) in E by lia. apply Hflag, Hn in E. lia. }
  split; [split; [split; [assumption|apply (Habove 32%nat Hones)]|assumption]|].
  apply Habove. intros i Hi. apply lookup_lt_Some in Hi. assumption.
Qed.

(** X1. Whenever [maskStrToInt] returns, the text holds only ['0'], ['1'] and
    [','], and the value returned encodes it: bit [i] is set iff flag [i] is
    ['1'], and the value is below 2 to the number of flags (and below 2^32). *)
Theorem maskStrToInt_returns_encoding mask r :
  maskStrToInt mask = Ok r ->
  onlyMaskChars mask = true /\ encodes mask r /\
  r < 2 ^ Z.of_nat (length (flagChars mask)).
Proof.
  intros H.
  destruct (maskLoop_ok_inv mask 0 0 r H) as (Hok & Hones & Hlen);
    [unfold INT_MAX; lia|].
  destruct (maskLoop_reads_all mask 0 0) as (r' & Hr' & Hr0 & Hbits);
    try assumption; try lia.
  { intros j _. apply Z.bits_0. }
  unfold maskStrToInt in H. rewrite H in Hr'. inversion Hr'; subst r'.
  split; [assumption|]. apply bits_encode; [assumption| |].
  - intros i Hi. specialize (Hones i Hi). lia.
  - intros j Hj. rewrite Hbits by assumption.
    replace (j <? 0) with false by (symmetry; apply Z.ltb_ge; lia).
    rewrite Z.sub_0_r. reflexivity.
Qed.

(** The encoding of a text of five flags. *)
Lemma maskStrToInt_returns_encoding_witness :
  onlyMaskChars "0,1,1,0,1" = true /\ encodes "0,1,1,0,1" 22 /\
  22 < 2 ^ Z.of_nat (length (flagChars "0,1,1,0,1")).
Proof.
  apply (maskStrToInt_returns_encoding "0,1,1,0,1" 22). reflexivity.
Defined.

(** X2. A text of ['0'], ['1'] and [','] is encoded whenever its set flags are
    among the first 32 and it has at most [INT_MAX] flags: unset flags past
    index 31 are read and leave the value as it is. *)
Theorem maskStrToInt_long_text mask :
  onlyMaskChars mask = true ->
  noneSetFrom 32 mask = true ->
  Z.of_nat (length (flagChars mask)) <= INT_MAX ->
  exists r, maskStrToInt mask = Ok r /\ encodes mask r.
Proof.
  intros Hok Hnone Hlen.
  pose proof (proj1 (noneSetFrom_spec 32 mask) Hnone) as Hones.
  destruct (maskLoop_reads_all mask 0 0) as (r & Hr & Hr0 & Hbits);
    try assumption; try lia.
  { intros i Hi. specialize (Hones i Hi). lia. }
  { intros j _. apply Z.bits_0. }
  exists r. split; [assumption|].
  apply bits_encode; [assumption..|].
  intros j Hj. rewrite Hbits by assumption.
  replace (j <? 0) with false by (symmetry; apply Z.ltb_ge; lia).
  rewrite Z.sub_0_r. reflexivity.
Qed.

(** Forty flags. *)
Lemma maskStrToInt_long_text_witness :
  exists r, maskStrToInt flags40 = Ok r /\ encodes flags40 r.
Proof.
  apply (maskStrToInt_long_text flags40).
  - reflexivity.
  - reflexivity.
  - vm_compute. discriminate.
Defined.

Lemma shlInt_one_overflow idx : 32 <= idx -> shlInt 1 idx = None.
Proof.
  intros Hidx. unfold shlInt. rewrite Z.shiftl_1_l.
  assert (2 ^ 32 <= 2 ^ idx) by (apply Z.pow_le_mono_r; lia).
  replace (2 ^ idx <? 2 ^ 32) with false by (symmetry; apply Z.ltb_ge; lia).
  rewrite andb_false_r. reflexivity.
Qed.

Lemma onlyMaskChars_app s1 s2 :
  onlyMaskChars (s1 ++ s2) = onlyMaskChars s1 && onlyMaskChars s2.
Proof.
  induction s1 as [|c rest IH]; [reflexivity|].
  change (isMaskChar c && onlyMaskChars (rest ++ s2) =
          isMaskChar c && onlyMaskChars rest && onlyMaskChars s2).
  rewrite IH. apply andb_assoc.
Qed.

Lemma flagChars_app s1 s2 :
  flagChars (s1 ++ s2) = (flagChars s1 ++ flagChars s2)%list.
Proof.
  induction s1 as [|c rest IH]; [reflexivity|].
  change (flagChars (String c (rest ++ s2)) =
          (flagChars (String c rest) ++ flagChars s2)%list).
  cbn [flagChars]. destruct (Ascii.eqb c ","); rewrite IH; reflexivity.
Qed.

(** The loop over a concatenation is the loop over the first text, then the
    loop over the second with the accumulator and the index it left. *)
Lemma maskLoop_app s1 s2 : forall result idx,
  maskLoop (s1 ++ s2) result idx =
    (r1 ← maskLoop s1 result idx;
     maskLoop s2 r1 (idx + Z.of_nat (length (flagChars s1)))).
Proof.
  induction s1 as [|c rest IH]; intros result idx.
  - cbn. rewrite Z.add_0_r. reflexivity.
  - change (maskLoop (String c (rest ++ s2)) result idx =
            (r1 ← maskLoop (String c rest) result idx;
             maskLoop s2 r1 (idx + Z.of_nat (length (flagChars (String c rest)))))).
    cbn [maskLoop flagChars].
    destruct (Ascii.eqb c ","); [apply IH|].
    cbn [length].
    replace (idx + Z.of_nat (S (length (flagChars rest))))
      with (idx + 1 + Z.of_nat (length (flagChars rest))) by lia.
    destruct (Ascii.eqb c "1").
    { destruct (shlInt 1 idx); [apply IH|reflexivity]. }
    destruct (Ascii.eqb c "0"); [|reflexivity].
    destruct (idx <? INT_MAX); [apply IH|reflexivity].
Qed.

(** An exception of the loop names a character that is none of the three,
    the first one of the text. *)
Lemma maskLoop_throw_inv mask : forall result idx e,
  maskLoop mask result idx = Throw e ->
  exists pre c post,
    mask = pre ++ String c post /\ onlyMaskChars pre = true /\
    isMaskChar c = false /\ e = UnsupportedMaskValue c.
Proof.
  induction mask as [|a rest IH]; intros result idx e H; [discriminate|].
  cbn in H.
  assert (Hstep : forall result' idx',
             isMaskChar a = true ->
             maskLoop rest result' idx' = Throw e ->
             exists pre c post,
               String a rest = pre ++ String c post /\ onlyMaskChars pre = true /\
               isMaskChar c = false /\ e = UnsupportedMaskValue c).
  { intros result' idx' Ha Hrest.
    destruct (IH _ _ _ Hrest) as (pre & c & post & -> & Hpre & Hc & He).
    exists (String a pre), c, post. repeat split; [|assumption..].
    cbn. rewrite Ha, Hpre. reflexivity. }
  unfold isMaskChar in Hstep.
  destruct (Ascii.eqb a ",") eqn:Hc; [eapply Hstep; [reflexivity|eassumption]|].
  destruct (Ascii.eqb a "1") eqn:H1.
  { destruct (shlInt 1 idx); [|discriminate].
    eapply Hstep; [reflexivity|eassumption]. }
  destruct (Ascii.eqb a "0") eqn:H0.
  { destruct (idx <? INT_MAX); [|discriminate].
    eapply Hstep; [reflexivity|eassumption]. }
  inversion H. exists EmptyString, a, rest. repeat split.
  unfold isMaskChar. rewrite Hc, H1, H0. reflexivity.
Qed.

(** X3. A set flag at index 32 or more, after a text of ['0'], ['1'] and [','],
    is never encoded: whatever follows it, the call reaches a shift of [0x1]
    by at least the width of [int] (or was undefined before), which C++
    leaves undefined. *)
Theorem maskStrToInt_set_flag_past_31 pre post :
  onlyMaskChars pre = true ->
  (32 <= length (flagChars pre))%nat ->
  maskStrToInt (pre ++ String "1" post) = Undefined.
Proof.
  intros Hpre Hlen. unfold maskStrToInt. rewrite maskLoop_app.
  destruct (maskLoop pre 0 0) as [r1|e|] eqn:Hloop; [| |reflexivity].
  - cbn. rewrite shlInt_one_overflow by lia. reflexivity.
  - exfalso. apply maskLoop_throw_inv in Hloop
      as (p & c & q & -> & _ & Hc & _).
    rewrite onlyMaskChars_app in Hpre. cbn in Hpre.
    rewrite Hc in Hpre. rewrite andb_false_r in Hpre. discriminate.
Qed.

(** Thirty-three unset flags, then a set one. *)
Lemma maskStrToInt_set_flag_past_31_witness :
  maskStrToInt
    ("0000000000000000,00000000000000000,"
       ++ String "1" ",0") = Undefined.
Proof.
  apply maskStrToInt_set_flag_past_31.
  - reflexivity.
  - vm_compute. lia.
Defined.

(** X4. An exception of [maskStrToInt] is the format error of the first
    character of the text that is not ['0'], ['1'] or [',']; what follows that
    character is not read: any other continuation gives the same exception. *)
Theorem maskStrToInt_throws_first_foreign mask e :
  maskStrToInt mask = Throw e ->
  exists pre c post,
    mask = pre ++ String c post /\ onlyMaskChars pre = true /\
    isMaskChar c = false /\ e = UnsupportedMaskValue c /\
    forall post', maskStrToInt (pre ++ String c post') = Throw e.
Proof.
  intros H. pose proof H as H'.
  apply maskLoop_throw_inv in H' as (pre & c & post & -> & Hpre & Hc & ->).
  exists pre, c, post. repeat split; try assumption.
  intros post'. unfold maskStrToInt in *. rewrite maskLoop_app in H |- *.
  destruct (maskLoop pre 0 0) as [r1|e'|]; [|assumption|discriminate].
  cbn. apply isMaskChar_false in Hc as (Hc & H1 & H0).
  rewrite Hc, H1, H0. reflexivity.
Qed.

(** Forty flags before the foreign character. *)
Lemma maskStrToInt_throws_first_foreign_witness :
  exists pre c post,
    (flags40 ++ ",2,x")%string = pre ++ String c post /\ onlyMaskChars pre = true /\
    isMaskChar c = false /\ UnsupportedMaskValue "2" = UnsupportedMaskValue c /\
    forall post', maskStrToInt (pre ++ String c post') = Throw (UnsupportedMaskValue "2").
Proof.
  apply (maskStrToInt_throws_first_foreign (flags40 ++ ",2,x")). reflexivity.
Defined.

Lemma maskLoop_stripSeparators mask : forall result idx,
  maskLoop (stripSeparators mask) result idx = maskLoop mask result idx.
Proof.
  unfold stripSeparators.
  induction mask as [|c rest IH]; intros result idx; [reflexivity|].
  cbn. destruct (Ascii.eqb c ",") eqn:Hc; [apply IH|].
  cbn. rewrite Hc.
  destruct (Ascii.eqb c "1").
  { destruct (shlInt 1 idx); [apply IH|reflexivity]. }
  destruct (Ascii.eqb c "0"); [|reflexivity].
  destruct (idx <? INT_MAX); [apply IH|reflexivity].
Qed.

(** X5. Separators carry no information: on every text, [maskStrToInt] does
    what it does on the text without its [','] characters (same value, same
    exception, same undefined shift), so two texts with the same flags in the
    same order are encoded alike, wherever their separators are. *)
Theorem maskStrToInt_separators mask :
  maskStrToInt (stripSeparators mask) = maskStrToInt mask /\
  forall mask', flagChars mask' = flagChars mask ->
    maskStrToInt mask' = maskStrToInt mask.
Proof.
  split; [apply maskLoop_stripSeparators|].
  intros mask' Hflags. unfold maskStrToInt.
  rewrite <- (maskLoop_stripSeparators mask'), <- (maskLoop_stripSeparators mask).
  unfold stripSeparators. rewrite Hflags. reflexivity.
Qed.

Lemma testbit_same (b1 b2 : bool) (P : Prop) :
  (b1 = true <-> P) -> (b2 = true <-> P) -> b1 = b2.
Proof.
  intros H1 H2. destruct b1, b2; try reflexivity.
  - symmetry. apply H2, H1. reflexivity.
  - apply H1, H2. reflexivity.
Qed.

(** X6. Encoding a concatenation: when two texts encode to [r1] and [r2] and
    have at most 32 flags together, their concatenation encodes to [r1] with
    [r2] shifted left by the number of flags of the first text. *)
Theorem maskStrToInt_concat s1 s2 r1 r2 :
  maskStrToInt s1 = Ok r1 ->
  maskStrToInt s2 = Ok r2 ->
  (length (flagChars s1) + length (flagChars s2) <= 32)%nat ->
  maskStrToInt (s1 ++ s2) =
    Ok (Z.lor r1 (Z.shiftl r2 (Z.of_nat (length (flagChars s1))))).
Proof.
  intros H1 H2 Hlen.
  apply maskStrToInt_returns_encoding in H1 as (Hok1 & [_ Hb1] & _).
  apply maskStrToInt_returns_encoding in H2 as (Hok2 & [_ Hb2] & _).
  destruct (maskStrToInt_encodes (s1 ++ s2)) as (r & Hr & [_ Hb]).
  { rewrite onlyMaskChars_app, Hok1, Hok2. reflexivity. }
  { rewrite flagChars_app, length_app. assumption. }
  rewrite Hr. f_equal. apply Z.bits_inj'. intros j Hj.
  rewrite Z.lor_spec.
  rewrite <- (Z2Nat.id j) by assumption.
  set (i := Z.to_nat j).
  destruct (Nat.lt_ge_cases i (length (flagChars s1))) as [Hlt | Hge].
  - rewrite Z.shiftl_spec_low, orb_false_r by lia.
    apply (testbit_same _ _ (flagChars s1 !! i = Some "1"%char)); [|apply Hb1].
    rewrite Hb, flagChars_app, lookup_app_l by assumption. reflexivity.
  - replace (Z.testbit r1 (Z.of_nat i)) with false.
    2:{ symmetry. apply not_true_is_false. intros E.
        apply Hb1, lookup_lt_Some in E. lia. }
    rewrite Z.shiftl_spec by lia. cbn [orb].
    replace (Z.of_nat i - Z.of_nat (length (flagChars s1)))
      with (Z.of_nat (i - length (flagChars s1))) by lia.
    apply (testbit_same _ _
             (flagChars s2 !! (i - length (flagChars s1))%nat = Some "1"%char));
      [|apply Hb2].
    rewrite Hb, flagChars_app, lookup_app_r by assumption. reflexivity.
Qed.

(** Three flags, then two. *)
Lemma maskStrToInt_concat_witness :
  maskStrToInt ("1,0,1," ++ "1,1") =
    Ok (Z.lor 5 (Z.shiftl 3 (Z.of_nat (length (flagChars "1,0,1,"))))).
Proof.
  apply (maskStrToInt_concat "1,0,1," "1,1" 5 3); [reflexivity..|].
  vm_compute. lia.
Defined.

(** X7. Two texts that encode, encode to the same value iff they have their
    set flags at the same indices: the value does not tell how many flags a
    text has, nor where its separators are. *)
Theorem maskStrToInt_same_value m1 m2 r1 r2 :
  maskStrToInt m1 = Ok r1 ->
  maskStrToInt m2 = Ok r2 ->
  (r1 = r2 <->
   forall i, flagChars m1 !! i = Some "1"%char <-> flagChars m2 !! i = Some "1"%char).
Proof.
  intros H1 H2.
  apply maskStrToInt_returns_encoding in H1 as (_ & [_ Hb1] & _).
  apply maskStrToInt_returns_encoding in H2 as (_ & [_ Hb2] & _).
  split.
  - intros <- i. rewrite <- Hb1, <- Hb2. reflexivity.
  - intros Hsame. apply Z.bits_inj'. intros j Hj.
    rewrite <- (Z2Nat.id j) by assumption.
    apply (testbit_same _ _ (flagChars m1 !! Z.to_nat j = Some "1"%char));
      [apply Hb1|]. rewrite Hsame. apply Hb2.
Qed.

(** Two and four flags, one value. *)
Lemma maskStrToInt_same_value_witness :
  2 = 2 <->
  forall i, flagChars "0,1" !! i = Some "1"%char <->
            flagChars "01,0,0," !! i = Some "1"%char.
Proof.
  apply (maskStrToInt_same_value "0,1" "01,0,0," 2 2); reflexivity.
Defined.

(** ** Frontend *)

Lemma stridesLoop_layer layer layer' ptr : forall n i,
  layerName layer' = layerName layer -> layerType layer' = layerType layer ->
  stridesLoop layer' ptr i n = stridesLoop layer ptr i n.
Proof.
  induction n as [|n IH]; intros i Hn Ht; [reflexivity|].
  cbn. rewrite Hn, Ht, (IH (S i) Hn Ht). reflexivity.
Qed.

Lemma stridesLoop_ext layer ptr ptr' : forall n i,
  (forall j, (i <= j < i + n)%nat -> ptr' j = ptr j) ->
  stridesLoop layer ptr' i n = stridesLoop layer ptr i n.
Proof.
  induction n as [|n IH]; intros i Hagree; [reflexivity|].
  cbn. rewrite (Hagree i) by lia. rewrite (IH (S i)); [reflexivity|].
  intros j Hj. apply Hagree. lia.
Qed.

(** What the verdict of a translation is made of: the layer's name and type,
    the three refused masks, the two lengths and the fourth input. *)
Lemma parseStridedSlice_verdict ft ft' model model' layer layer'
    (ins ins' outs outs' : DataVector) :
  layerName layer' = layerName layer -> layerType layer' = layerType layer ->
  newAxisOf layer' = newAxisOf layer ->
  shrinkAxisOf layer' = shrinkAxisOf layer ->
  ellipsisOf layer' = ellipsisOf layer ->
  length ins' = length ins -> ins' !! 3%nat = ins !! 3%nat ->
  length outs' = length outs ->
  verdict (parseStridedSlice ft' model' layer' ins' outs') =
  verdict (parseStridedSlice ft model layer ins outs).
Proof.
  unfold newAxisOf, shrinkAxisOf, ellipsisOf.
  intros Hn Ht Hnew Hshrink Hell Hins H3 Houts.
  unfold parseStridedSlice.
  rewrite Hn, Ht, Hnew, Hshrink, Hell, Hins, H3, Houts.
  destruct ((length ins =? 3)%nat || (length ins =? 4)%nat); [|reflexivity].
  destruct (length outs =? 1)%nat; [|reflexivity].
  cbn.
  destruct (maskStrToInt (GetParamAsString layer "new_axis_mask" "")) as [n| |];
    [|reflexivity..].
  cbn. destruct (n =? 0); [|reflexivity]. cbn.
  destruct (maskStrToInt (GetParamAsString layer "shrink_axis_mask" "")) as [s| |];
    [|reflexivity..].
  cbn. destruct (s =? 0); [|reflexivity]. cbn.
  destruct (maskStrToInt (GetParamAsString layer "ellipsis_mask" "")) as [l| |];
    [|reflexivity..].
  cbn. destruct (l =? 0); [|reflexivity]. cbn.
  destruct (length ins =? 3)%nat; [reflexivity|].
  destruct (ins !! 3%nat) as [strides|]; [|reflexivity].
  destruct (content strides) as [stridesContent|]; [|reflexivity].
  destruct (getS32 stridesContent) as [ptr|]; [|reflexivity].
  cbn. rewrite (stridesLoop_layer layer layer') by assumption.
  destruct (stridesLoop layer ptr 0 _); reflexivity.
Qed.

(** X8. The translation writes to the model and reads nothing from it: whether
    it succeeds, and the exception it throws if not, are the same on every
    model (and for every placeholder type of the container). *)
Theorem parseStridedSlice_model_independent ft ft' model model' layer ins outs :
  verdict (parseStridedSlice ft' model' layer ins outs) =
  verdict (parseStridedSlice ft model layer ins outs).
Proof. apply parseStridedSlice_verdict; reflexivity. Qed.

(** X9. The translation reads three parameters of the layer and no other:
    two layers with the same name, type and [new_axis_mask],
    [shrink_axis_mask], [ellipsis_mask] entries get the same verdict, whatever
    their [begin_mask], [end_mask] or other entries hold, malformed or not. *)
Theorem parseStridedSlice_other_params ft model layer params' ins outs :
  params' !! "new_axis_mask" = params layer !! "new_axis_mask" ->
  params' !! "shrink_axis_mask" = params layer !! "shrink_axis_mask" ->
  params' !! "ellipsis_mask" = params layer !! "ellipsis_mask" ->
  verdict (parseStridedSlice ft model
             (mkCNNLayer (layerName layer) (layerType layer) params') ins outs) =
  verdict (parseStridedSlice ft model layer ins outs).
Proof.
  intros Hnew Hshrink Hell.
  apply parseStridedSlice_verdict; try reflexivity.
  - unfold newAxisOf, GetParamAsString. cbn. rewrite Hnew. reflexivity.
  - unfold shrinkAxisOf, GetParamAsString. cbn. rewrite Hshrink. reflexivity.
  - unfold ellipsisOf, GetParamAsString. cbn. rewrite Hell. reflexivity.
Qed.

(** A layer with no parameter, and the same with two malformed masks. *)
Lemma parseStridedSlice_other_params_witness :
  verdict (parseStridedSlice FP16 emptyModel
             (mkCNNLayer "slice" "StridedSlice"
                (list_to_map [("begin_mask", "x"); ("end_mask", "1;0")]))
             [dataT; beginT; endT] [outT]) =
  verdict (parseStridedSlice FP16 emptyModel (sliceLayer [])
             [dataT; beginT; endT] [outT]).
Proof.
  apply (parseStridedSlice_other_params FP16 emptyModel (sliceLayer [])
           (list_to_map [("begin_mask", "x"); ("end_mask", "1;0")])
           [dataT; beginT; endT] [outT]); reflexivity.
Defined.

(** X10. Of the input tensors the translation reads the fourth only: with the
    same number of inputs and outputs and the same input #3 (none, for three
    inputs), the verdict is the same whatever the data, begin, end and output
    tensors are. *)
Theorem parseStridedSlice_other_tensors ft model layer (ins ins' outs outs' : DataVector) :
  length ins' = length ins -> ins' !! 3%nat = ins !! 3%nat ->
  length outs' = length outs ->
  verdict (parseStridedSlice ft model layer ins' outs') =
  verdict (parseStridedSlice ft model layer ins outs).
Proof. intros. apply parseStridedSlice_verdict; auto. Qed.

(** Begin and end tensors computed at run time, of another element type. *)
Lemma parseStridedSlice_other_tensors_witness :
  verdict (parseStridedSlice FP16 emptyModel (sliceLayer [])
             [outT; runtimeStridesT; dataT; stridesT] [beginT]) =
  verdict (parseStridedSlice FP16 emptyModel (sliceLayer [])
             [dataT; beginT; endT; stridesT] [outT]).
Proof.
  apply parseStridedSlice_other_tensors; reflexivity.
Defined.

(** X12. The strides check reads the first [totalDimSize] elements of the
    content and no other: two strides tensors of the same descriptor whose
    contents agree on these get the same verdict. With a [totalDimSize] of 0
    or less nothing is read, and the translation of 4 inputs, 1 output and no
    refused mask succeeds whatever the content holds. *)
Theorem parseStridedSlice_strides_extent ft model layer d b e u dsc ptr ptr' outs :
  (forall j, (j < Z.to_nat (totalDimSize dsc))%nat -> ptr' j = ptr j) ->
  verdict (parseStridedSlice ft model layer
             [d; b; e; mkData u dsc (int32Content ptr')] outs) =
  verdict (parseStridedSlice ft model layer
             [d; b; e; mkData u dsc (int32Content ptr)] outs) /\
  (totalDimSize dsc <= 0 -> length outs = 1%nat ->
   newAxisOf layer = Ok 0 -> shrinkAxisOf layer = Ok 0 -> ellipsisOf layer = Ok 0 ->
   succeeds (parseStridedSlice ft model layer
               [d; b; e; mkData u dsc (int32Content ptr)] outs)).
Proof.
  intros Hagree. split.
  - unfold parseStridedSlice. cbn.
    destruct (length outs =? 1)%nat; [|reflexivity]. cbn.
    destruct (maskStrToInt (GetParamAsString layer "new_axis_mask" "")) as [n| |];
      [|reflexivity..].
    cbn. destruct (n =? 0); [|reflexivity]. cbn.
    destruct (maskStrToInt (GetParamAsString layer "shrink_axis_mask" "")) as [s| |];
      [|reflexivity..].
    cbn. destruct (s =? 0); [|reflexivity]. cbn.
    destruct (maskStrToInt (GetParamAsString layer "ellipsis_mask" "")) as [l| |];
      [|reflexivity..].
    cbn. destruct (l =? 0); [|reflexivity]. cbn.
    rewrite (stridesLoop_ext layer ptr ptr').
    + destruct (stridesLoop layer ptr 0 _); reflexivity.
    + intros j Hj. apply Hagree. lia.
  - intros Htotal Houts Hn Hs He.
    rewrite parseStridedSlice_four by assumption. cbn.
    replace (Z.to_nat (totalDimSize dsc)) with 0%nat by lia.
    cbn. eexists. reflexivity.
Qed.

(** A strides tensor with no element. *)
Lemma parseStridedSlice_strides_extent_witness :
  verdict (parseStridedSlice FP16 emptyModel (sliceLayer [])
             [dataT; beginT; endT;
              mkData Const (mkDataDesc S32 [0]) (int32Content (arrayOf []))]
             [outT]) =
  verdict (parseStridedSlice FP16 emptyModel (sliceLayer [])
             [dataT; beginT; endT; emptyStridesT] [outT]) /\
  succeeds (parseStridedSlice FP16 emptyModel (sliceLayer [])
              [dataT; beginT; endT; emptyStridesT] [outT]).
Proof.
  assert (Hagree : forall j : nat,
             (j < Z.to_nat (totalDimSize (mkDataDesc S32 [0%Z])))%nat ->
             arrayOf [] j = arrayOf [-1; 0] j)
    by (intros j Hj; cbn in Hj; lia).
  split.
  - exact (proj1 (parseStridedSlice_strides_extent FP16 emptyModel (sliceLayer [])
                    dataT beginT endT Const (mkDataDesc S32 [0])
                    (arrayOf [-1; 0]) (arrayOf []) [outT] Hagree)).
  - apply (proj2 (parseStridedSlice_strides_extent FP16 emptyModel (sliceLayer [])
                    dataT beginT endT Const (mkDataDesc S32 [0])
                    (arrayOf [-1; 0]) (arrayOf []) [outT] Hagree));
      [cbn; lia|reflexivity..].
Defined.

(** ** Structural validator *)

(** X13. The arity errors of [initialCheckImpl], in the order of the checks:
    a number of inputs other than 3 or 4 throws the input-count error with
    that number, whatever the outputs are; with 3 or 4 inputs, a number of
    outputs other than 1 throws the output-count error. No tensor is looked
    at in either case. *)
Theorem initialCheckImpl_arity_errors st :
  (numInputs st <> 3%nat -> numInputs st <> 4%nat ->
   initialCheckImpl st = Throw (CheckNumInputs (name st) (type st) (numInputs st))) /\
  (numInputs st = 3%nat \/ numInputs st = 4%nat -> numOutputs st <> 1%nat ->
   initialCheckImpl st = Throw (CheckNumOutputs (name st) (type st) (numOutputs st))).
Proof.
  unfold initialCheckImpl. split.
  - intros H3 H4. apply Nat.eqb_neq in H3, H4. rewrite H3, H4. reflexivity.
  - intros Hin Hout. apply Nat.eqb_neq in Hout.
    replace ((numInputs st =? 3)%nat || (numInputs st =? 4)%nat) with true.
    + cbn. rewrite Hout. reflexivity.
    + symmetry. apply orb_true_iff. rewrite !Nat.eqb_eq. assumption.
Qed.

(** Five inputs and no output; three inputs and two outputs. *)
Lemma initialCheckImpl_arity_errors_witness :
  initialCheckImpl (stageOf (sliceLayer []) [dataT; beginT; endT; stridesT; outT] []) =
    Throw (CheckNumInputs "slice" StridedSlice 5) /\
  initialCheckImpl (stageOf (sliceLayer []) [dataT; beginT; endT] [outT; outT]) =
    Throw (CheckNumOutputs "slice" StridedSlice 2).
Proof.
  split.
  - apply (proj1 (initialCheckImpl_arity_errors
                    (stageOf (sliceLayer []) [dataT; beginT; endT; stridesT; outT] [])));
      cbn; lia.
  - apply (proj2 (initialCheckImpl_arity_errors
                    (stageOf (sliceLayer []) [dataT; beginT; endT] [outT; outT])));
      cbn; lia.
Defined.

(** X14. The frontend and the validator agree on arity: on a stage the
    frontend registered, [initialCheckImpl] passes its two arity checks, so it
    succeeds or throws the type error of one tensor. *)
Theorem initialCheckImpl_after_frontend ft model layer ins outs model' st :
  parseStridedSlice ft model layer ins outs = Ok model' ->
  constructedStage model' = Some st ->
  numInputs st = 4%nat /\ numOutputs st = 1%nat /\
  (initialCheckImpl st = Ok tt \/
   exists idx actual,
     initialCheckImpl st = Throw (UnexpectedDataType (layerName layer) idx actual)).
Proof.
  intros Hparse Hst.
  destruct (parseStridedSlice_constructed _ _ _ _ _ _ Hparse)
    as (ext & Hst' & Hlen & _ & Houts).
  rewrite Hst in Hst'. inversion Hst'; subst st; clear Hst'.
  split; [assumption|]. split; [assumption|].
  destruct ext as [|i0 [|i1 [|i2 [|i3 [|extra rest]]]]]; try discriminate.
  destruct outs as [|o0 [|extra rest]]; try discriminate.
  unfold initialCheckImpl, assertInputsOutputsTypes, numInputs, numOutputs, input.
  cbn. rewrite ?enumSet_singleton.
  repeat case_bool_decide; cbn; eauto.
Qed.

(** The stage registered for four inputs of the right types. *)
Lemma initialCheckImpl_after_frontend_witness :
  numInputs fourInputStage = 4%nat /\ numOutputs fourInputStage = 1%nat /\
  (initialCheckImpl fourInputStage = Ok tt \/
   exists idx actual,
     initialCheckImpl fourInputStage =
       Throw (UnexpectedDataType
                (layerName (sliceLayer [("begin_mask", "1,0,0,0"); ("end_mask", "0,0,1,1")]))
                idx actual)).
Proof.
  apply (initialCheckImpl_after_frontend FP16 emptyModel
           (sliceLayer [("begin_mask", "1,0,0,0"); ("end_mask", "0,0,1,1")])
           [dataT; beginT; endT; stridesT] [outT]
           (mkModel [] [fourInputStage]) fourInputStage); reflexivity.
Defined.

(** ** Binary encoder *)

(** X15. [serializeDataImpl] returns exactly when the stage has at least 4
    inputs and at least 1 output; it then leaves the serializer's content in
    place and appends the references of inputs #0 to #3 and of output #0, and
    nothing for any further input or output. *)
Theorem serializeDataImpl_returns st serializer serializer' :
  serializeDataImpl st serializer = Ok serializer' <->
  exists i0 i1 i2 i3 moreInputs o0 moreOutputs,
    inputs st = i0 :: i1 :: i2 :: i3 :: moreInputs /\
    outputs st = o0 :: moreOutputs /\
    serializer' =
      (serializer ++ [BufferRef i0; BufferRef i1; BufferRef i2; BufferRef i3;
                      BufferRef o0])%list.
Proof.
  unfold serializeDataImpl, input, output, serializeBuffer. split.
  - intros H.
    destruct (inputs st) as [|i0 [|i1 [|i2 [|i3 moreInputs]]]]; try discriminate.
    destruct (outputs st) as [|o0 moreOutputs]; try discriminate.
    cbn in H. inversion H.
    exists i0, i1, i2, i3, moreInputs, o0, moreOutputs.
    rewrite <- !app_assoc. auto.
  - intros (i0 & i1 & i2 & i3 & moreInputs & o0 & moreOutputs & Hin & Hout & ->).
    rewrite Hin, Hout. cbn. rewrite <- !app_assoc. reflexivity.
Qed.

(** Five inputs and two outputs: the fifth input and the second output are
    not referenced. *)
Lemma serializeDataImpl_returns_witness :
  exists i0 i1 i2 i3 moreInputs o0 moreOutputs,
    inputs wideStage = i0 :: i1 :: i2 :: i3 :: moreInputs /\
    outputs wideStage = o0 :: moreOutputs /\
    [UInt32 1; BufferRef dataT; BufferRef beginT; BufferRef endT; BufferRef stridesT;
     BufferRef outT] =
      ([UInt32 1] ++ [BufferRef i0; BufferRef i1; BufferRef i2; BufferRef i3;
                      BufferRef o0])%list.
Proof.
  apply (proj1 (serializeDataImpl_returns wideStage [UInt32 1] _)). reflexivity.
Defined.

(** X16. Whenever [serializeParamsImpl] returns, it has left the serializer's
    content in place and appended two 32-bit unsigned integers, 8 bytes, which
    encode the [begin_mask] and the [end_mask] text of the layer, in this
    order; this for any stage, validated or not. *)
Theorem serializeParamsImpl_returns st serializer serializer' :
  serializeParamsImpl st serializer = Ok serializer' ->
  exists b e,
    serializer' = (serializer ++ [UInt32 b; UInt32 e])%list /\
    encodes (GetParamAsString (origLayer st) "begin_mask" "") b /\
    encodes (GetParamAsString (origLayer st) "end_mask" "") e /\
    scalarBytes [UInt32 b; UInt32 e] = Some 8.
Proof.
  unfold serializeParamsImpl. intros H.
  destruct (maskStrToInt (GetParamAsString (origLayer st) "begin_mask" ""))
    as [b| |] eqn:Hb; [|discriminate..].
  cbn in H.
  destruct (maskStrToInt (GetParamAsString (origLayer st) "end_mask" ""))
    as [e| |] eqn:He; [|discriminate..].
  cbn in H. inversion H.
  apply maskStrToInt_returns_encoding in Hb as (_ & Hb & _).
  apply maskStrToInt_returns_encoding in He as (_ & He & _).
  exists b, e. unfold append. rewrite <- app_assoc. auto.
Qed.

(** The parameters of the stage with masks ["1,0,0,0"] and ["0,0,1,1"]. *)
Lemma serializeParamsImpl_returns_witness :
  exists b e,
    [UInt32 7; UInt32 1; UInt32 12] = ([UInt32 7] ++ [UInt32 b; UInt32 e])%list /\
    encodes (GetParamAsString (origLayer fourInputStage) "begin_mask" "") b /\
    encodes (GetParamAsString (origLayer fourInputStage) "end_mask" "") e /\
    scalarBytes [UInt32 b; UInt32 e] = Some 8.
Proof.
  apply (serializeParamsImpl_returns fourInputStage [UInt32 7]). reflexivity.
Defined.

(** X17. An exception of [serializeParamsImpl] is a format error of the mask
    codec: that of [begin_mask] if this text is refused, whatever [end_mask]
    holds, and else that of [end_mask]. *)
Theorem serializeParamsImpl_throws st serializer err :
  serializeParamsImpl st serializer = Throw err ->
  errorKind err = FormatError /\
  (maskStrToInt (GetParamAsString (origLayer st) "begin_mask" "") = Throw err \/
   (succeeds (maskStrToInt (GetParamAsString (origLayer st) "begin_mask" "")) /\
    maskStrToInt (GetParamAsString (origLayer st) "end_mask" "") = Throw err)).
Proof.
  unfold serializeParamsImpl. intros H.
  destruct (maskStrToInt (GetParamAsString (origLayer st) "begin_mask" ""))
    as [b| |] eqn:Hb; [|inversion H; subst|discriminate].
  - cbn in H.
    destruct (maskStrToInt (GetParamAsString (origLayer st) "end_mask" ""))
      as [e| |] eqn:He; [discriminate|inversion H; subst|discriminate].
    split; [eapply maskLoop_throws_format, He|].
    right. split; [eexists|]; reflexivity.
  - split; [eapply maskLoop_throws_format, Hb|]. left. reflexivity.
Qed.

(** Both masks malformed: the error is that of [begin_mask]. *)
Lemma serializeParamsImpl_throws_witness :
  errorKind (UnsupportedMaskValue "a") = FormatError /\
  (maskStrToInt
     (GetParamAsString
        (origLayer (stageOf (sliceLayer [("begin_mask", "1,a"); ("end_mask", "b")])
                      [dataT; beginT; endT; stridesT] [outT]))
        "begin_mask" "") = Throw (UnsupportedMaskValue "a") \/
   (succeeds
      (maskStrToInt
         (GetParamAsString
            (origLayer (stageOf (sliceLayer [("begin_mask", "1,a"); ("end_mask", "b")])
                          [dataT; beginT; endT; stridesT] [outT]))
            "begin_mask" "")) /\
    maskStrToInt
      (GetParamAsString
         (origLayer (stageOf (sliceLayer [("begin_mask", "1,a"); ("end_mask", "b")])
                       [dataT; beginT; endT; stridesT] [outT]))
         "end_mask" "") = Throw (UnsupportedMaskValue "a"))).
Proof.
  apply (serializeParamsImpl_throws
           (stageOf (sliceLayer [("begin_mask", "1,a"); ("end_mask", "b")])
              [dataT; beginT; endT; stridesT] [outT]) []).
  reflexivity.
Defined.

(** X18. What a stage appends does not depend on what the serializer holds:
    each encoder, run on a serializer, does what it does on an empty one,
    after the content already there. So the blocks of stages serialized one
    after the other are laid out one after the other. *)
Theorem serialize_position_independent st serializer :
  serializeParamsImpl st serializer =
    (app serializer <$> serializeParamsImpl st []) /\
  serializeDataImpl st serializer =
    (app serializer <$> serializeDataImpl st []) /\
  serialize st serializer = (app serializer <$> serialize st []).
Proof.
  assert (Hp : serializeParamsImpl st serializer =
               (app serializer <$> serializeParamsImpl st [])).
  { unfold serializeParamsImpl.
    destruct (maskStrToInt (GetParamAsString (origLayer st) "begin_mask" ""));
      try reflexivity.
    cbn. destruct (maskStrToInt (GetParamAsString (origLayer st) "end_mask" ""));
      try reflexivity.
    cbn. unfold append. cbn. rewrite <- app_assoc. reflexivity. }
  assert (Hd : forall s, serializeDataImpl st s = (app s <$> serializeDataImpl st [])).
  { intros s. unfold serializeDataImpl, input, output, serializeBuffer.
    destruct (inputs st) as [|i0 [|i1 [|i2 [|i3 moreInputs]]]]; try reflexivity.
    destruct (outputs st) as [|o0 moreOutputs]; try reflexivity.
    cbn. rewrite <- !app_assoc. reflexivity. }
  split; [assumption|]. split; [apply Hd|].
  unfold serialize. rewrite Hp.
  destruct (serializeParamsImpl st []) as [params| |]; try reflexivity.
  cbn. rewrite (Hd (serializer ++ params)%list), (Hd params).
  destruct (serializeDataImpl st []) as [refs| |]; try reflexivity.
  cbn. rewrite app_assoc. reflexivity.
Qed.
